(** * stock_reserve_sale: sale order lines reserving stock

    Shallow embedding of [stock_reserve_sale/model/sale.py].  The host
    ORM tables are association lists of records (ordered by id, as the
    database returns them); methods run in a state monad with Python-like
    exceptions: a raised error keeps the state reached at the raise point.
    Monetary amounts and quantities are integers (numeric precision is
    delegated to the host). *)

From Stdlib Require Import List Bool ZArith String Lia.
Import ListNotations.
Open Scope string_scope.

(** ** Records of the host tables *)

Record product := {
  p_id : nat;
  p_type : string;                   (* 'product', 'consu', 'service' *)
  p_routes : list nat;               (* product.route_ids *)
  p_categ_total_routes : list nat    (* product.categ_id.total_route_ids *)
}.

Record warehouse := { w_id : nat; w_routes : list nat }.

Record rule := {
  ru_id : nat;
  ru_route : option nat;             (* route_id *)
  ru_warehouse : option nat;         (* warehouse_id, None = False *)
  ru_route_sequence : Z;
  ru_sequence : Z;
  ru_procure_method : string
}.

Record order := {
  o_id : nat;
  o_name : string;
  o_state : string;
  o_warehouse : option nat;
  o_group : option nat;              (* procurement_group_id *)
  o_partner_shipping : nat;
  o_picking_policy : string
}.

Record line := {
  l_id : nat;
  l_order : nat;                     (* order_id *)
  l_name : string;
  l_state : string;
  l_product : option nat;            (* product_id *)
  l_uom : nat;                       (* product_uom *)
  l_qty : Z;                         (* product_uom_qty *)
  l_price : Z;                       (* price_unit *)
  l_owner : option nat;              (* stock_owner_id, None when absent *)
  l_reservable : bool                (* stored is_stock_reservable *)
}.

Record group := {
  g_id : nat; g_name : string; g_move_type : string;
  g_sale_id : nat; g_partner : nat
}.

Inductive rstate := RDraft | RReserved | RReleased.

Record reservation := {
  r_id : nat;
  r_line : option nat;               (* sale_line_id *)
  r_product : option nat;
  r_uom : nat;
  r_qty : Z;
  r_price : Z;
  r_name : string;
  r_note : option string;
  r_date_validity : option string;
  r_partner : nat;
  r_restrict_partner : option nat;
  r_group : option nat;
  r_state : rstate
}.

(** Calls forwarded to the host or to [stock.reservation], in order. *)
Inductive event :=
  | EvCreateGroup (g : nat)
  | EvCreateReservation (rid : nat)
  | EvReserve (rids : list nat)
  | EvRelease (rids : list nat)
  | EvSuperConfirm (oids : list nat)
  | EvSuperCancel (oids : list nat).

Record state := {
  st_products : list product;
  st_warehouses : list warehouse;
  st_rules : list rule;
  st_orders : list order;
  st_lines : list line;
  st_groups : list group;
  st_res : list reservation;
  st_next : nat;                     (* next database id *)
  st_log : list event
}.

(** ** Lookups (browse) *)

Definition product_of (st : state) (i : nat) : option product :=
  find (fun p => Nat.eqb (p_id p) i) (st_products st).
Definition warehouse_of (st : state) (i : nat) : option warehouse :=
  find (fun w => Nat.eqb (w_id w) i) (st_warehouses st).
Definition order_of (st : state) (i : nat) : option order :=
  find (fun o => Nat.eqb (o_id o) i) (st_orders st).
Definition line_of (st : state) (i : nat) : option line :=
  find (fun l => Nat.eqb (l_id l) i) (st_lines st).

Definition opt_eqb (a b : option nat) : bool :=
  match a, b with
  | Some x, Some y => Nat.eqb x y
  | None, None => true
  | _, _ => false
  end.

Definition mem (x : nat) (xs : list nat) : bool := existsb (Nat.eqb x) xs.

(** One2many [reservation_ids]: the reservations whose [sale_line_id] is
    the line, and [mapped('reservation_ids')] over a recordset. *)
Definition reservation_ids (st : state) (l : nat) : list reservation :=
  List.filter (fun r => opt_eqb (r_line r) (Some l)) (st_res st).

Definition mapped_reservation_ids (st : state) (ids : list nat)
  : list reservation :=
  List.filter (fun r => match r_line r with
                        | Some l => mem l ids
                        | None => false end) (st_res st).

(** ** Host search: domains in Polish notation, order, limit *)

Inductive cond :=
  | CRouteIn (ids : list nat)              (* ('route_id', 'in', ids) *)
  | CWarehouseEq (w : option nat).         (* ('warehouse_id', '=', w) *)

Inductive dom_item := DOr | DAnd | DLeaf (c : cond).

Definition eval_cond (r : rule) (c : cond) : bool :=
  match c with
  | CRouteIn ids =>
      match ru_route r with Some x => mem x ids | None => false end
  | CWarehouseEq w => opt_eqb (ru_warehouse r) w
  end.

(** Operators take the two terms that follow them; the remaining
    top-level terms are joined by an implicit '&'. *)
Definition eval_domain (r : rule) (d : list dom_item) : bool :=
  forallb (fun b => b)
    (fold_right (fun it stk =>
       match it, stk with
       | DLeaf c, _ => eval_cond r c :: stk
       | DOr, a :: b :: s => (a || b) :: s
       | DAnd, a :: b :: s => (a && b) :: s
       | _, s => s
       end) [] d).

(** order='route_sequence, sequence' *)
Definition key_le (a b : rule) : bool :=
  Z.ltb (ru_route_sequence a) (ru_route_sequence b) ||
  (Z.eqb (ru_route_sequence a) (ru_route_sequence b) &&
   Z.leb (ru_sequence a) (ru_sequence b)).

Fixpoint insert_rule (r : rule) (rs : list rule) : list rule :=
  match rs with
  | [] => [r]
  | x :: t => if key_le x r then x :: insert_rule r t else r :: x :: t
  end.

Fixpoint sort_rules (rs : list rule) : list rule :=
  match rs with
  | [] => []
  | x :: t => insert_rule x (sort_rules t)
  end.

Definition search_rules (st : state) (d : list dom_item) (limit : nat)
  : list rule :=
  firstn limit (sort_rules (List.filter (fun r => eval_domain r d)
                                        (st_rules st))).

(** ** [SaleOrderLine._get_line_rule] and [_get_procure_method] *)

Definition product_route_ids (st : state) (ln : line) : list nat :=
  match l_product ln with
  | Some p => match product_of st p with
              | Some pr => p_routes pr ++ p_categ_total_routes pr
              | None => []
              end
  | None => []
  end.

Definition line_warehouse (st : state) (ln : line) : option nat :=
  match order_of st (l_order ln) with
  | Some o => o_warehouse o
  | None => None
  end.

Definition wh_route_ids (st : state) (ln : line) : list nat :=
  match line_warehouse st ln with
  | Some w => match warehouse_of st w with
              | Some wh => w_routes wh
              | None => []
              end
  | None => []
  end.

Definition fallback_domain (st : state) (ln : line) : list dom_item :=
  [DOr; DLeaf (CWarehouseEq (line_warehouse st ln));
        DLeaf (CWarehouseEq None);
        DLeaf (CRouteIn (wh_route_ids st ln))].

Definition _get_line_rule (st : state) (ln : line) : option rule :=
  let rules := search_rules st [DLeaf (CRouteIn (product_route_ids st ln))] 1 in
  let rules := match rules with
               | [] => search_rules st (fallback_domain st ln) 1
               | _ => rules
               end in
  match rules with
  | r :: _ => Some r
  | [] => None
  end.

Definition _get_procure_method (st : state) (ln : line) : option string :=
  match _get_line_rule st ln with
  | Some r => Some (ru_procure_method r)
  | None => None
  end.

(** ** Computed fields *)

Definition is_service (st : state) (ln : line) : bool :=
  match l_product ln with
  | Some p => match product_of st p with
              | Some pr => String.eqb (p_type pr) "service"
              | None => false
              end
  | None => false
  end.

Definition procure_is_mto (st : state) (ln : line) : bool :=
  match _get_procure_method st ln with
  | Some m => String.eqb m "make_to_order"
  | None => false
  end.

Definition _compute_is_stock_reservation (st : state) (ln : line) : bool :=
  let reservable := false in
  if negb (negb (String.eqb (l_state ln) "draft") ||
           procure_is_mto st ln ||
           negb (match l_product ln with Some _ => true | None => false end) ||
           is_service st ln) &&
     (match reservation_ids st (l_id ln) with [] => true | _ => false end)
  then true else reservable.

Definition order_lines (st : state) (o : order) : list line :=
  List.filter (fun l => Nat.eqb (l_order l) (o_id o)) (st_lines st).

(** Returns (is_stock_reservable, has_stock_reservation). *)
Definition _compute_stock_reservation (st : state) (o : order) : bool * bool :=
  let '(has, reservable) :=
    fold_left (fun '(has, reservable) ln =>
                 (match reservation_ids st (l_id ln) with [] => has | _ => true end,
                  if l_reservable ln then true else reservable))
              (order_lines st o) (false, false) in
  let reservable :=
    if existsb (String.eqb (o_state o)) ["draft"; "sent"]
    then reservable else false in
  (reservable, has).

(** ** Exceptions and the method monad *)

Inductive error :=
  | UserError (msg : string)
  | MissingError (id : nat).

Inductive result (A : Type) := Ok (a : A) | Err (e : error).
Arguments Ok {A} a.
Arguments Err {A} e.

Definition M (A : Type) := state -> result A * state.

Definition ret {A} (a : A) : M A := fun st => (Ok a, st).
Definition raise {A} (e : error) : M A := fun st => (Err e, st).
Definition bind {A B} (m : M A) (k : A -> M B) : M B :=
  fun st => match m st with
            | (Ok a, st') => k a st'
            | (Err e, st') => (Err e, st')
            end.
Definition get : M state := fun st => (Ok st, st).
Definition modify (f : state -> state) : M unit := fun st => (Ok tt, f st).

Notation "x <- m ;; k" := (bind m (fun x => k))
  (at level 61, m at next level, right associativity).
Notation "m ;; k" := (bind m (fun _ => k))
  (at level 61, right associativity).

(** The host runs every request in a database transaction that is rolled
    back when an exception escapes it. *)
Definition transaction {A} (m : M A) : M A :=
  fun st => match m st with
            | (Err e, _) => (Err e, st)
            | r => r
            end.

Definition browse_line (i : nat) : M line :=
  st <- get;;
  match line_of st i with
  | Some ln => ret ln
  | None => raise (MissingError i)
  end.

Definition browse_order (i : nat) : M order :=
  st <- get;;
  match order_of st i with
  | Some o => ret o
  | None => raise (MissingError i)
  end.

Definition msg_block : string :=
  "You cannot change the product or unit of measure of lines with a stock reservation. Release the reservation before changing the product.".
Definition msg_several : string :=
  "Several stock reservations are linked with the line. Impossible to adjust their quantity. Please release the reservation before changing the quantity.".

(** ** Table updates *)

Definition set_lines (f : list line -> list line) (st : state) : state :=
  {| st_products := st_products st; st_warehouses := st_warehouses st;
     st_rules := st_rules st; st_orders := st_orders st;
     st_lines := f (st_lines st); st_groups := st_groups st;
     st_res := st_res st; st_next := st_next st; st_log := st_log st |}.

Definition set_res (f : list reservation -> list reservation) (st : state)
  : state :=
  {| st_products := st_products st; st_warehouses := st_warehouses st;
     st_rules := st_rules st; st_orders := st_orders st;
     st_lines := st_lines st; st_groups := st_groups st;
     st_res := f (st_res st); st_next := st_next st; st_log := st_log st |}.

Definition set_orders (f : list order -> list order) (st : state) : state :=
  {| st_products := st_products st; st_warehouses := st_warehouses st;
     st_rules := st_rules st; st_orders := f (st_orders st);
     st_lines := st_lines st; st_groups := st_groups st;
     st_res := st_res st; st_next := st_next st; st_log := st_log st |}.

Definition log (e : event) (st : state) : state :=
  {| st_products := st_products st; st_warehouses := st_warehouses st;
     st_rules := st_rules st; st_orders := st_orders st;
     st_lines := st_lines st; st_groups := st_groups st;
     st_res := st_res st; st_next := st_next st;
     st_log := st_log st ++ [e] |}.

Definition with_line_reservable (b : bool) (l : line) : line :=
  {| l_id := l_id l; l_order := l_order l; l_name := l_name l;
     l_state := l_state l; l_product := l_product l; l_uom := l_uom l;
     l_qty := l_qty l; l_price := l_price l; l_owner := l_owner l;
     l_reservable := b |}.

Definition with_res_price_qty (price qty : Z) (r : reservation)
  : reservation :=
  {| r_id := r_id r; r_line := r_line r; r_product := r_product r;
     r_uom := r_uom r; r_qty := qty; r_price := price; r_name := r_name r;
     r_note := r_note r; r_date_validity := r_date_validity r;
     r_partner := r_partner r; r_restrict_partner := r_restrict_partner r;
     r_group := r_group r; r_state := r_state r |}.

Definition with_res_state (s : rstate) (r : reservation) : reservation :=
  {| r_id := r_id r; r_line := r_line r; r_product := r_product r;
     r_uom := r_uom r; r_qty := r_qty r; r_price := r_price r;
     r_name := r_name r; r_note := r_note r;
     r_date_validity := r_date_validity r; r_partner := r_partner r;
     r_restrict_partner := r_restrict_partner r; r_group := r_group r;
     r_state := s |}.

(** ORM recompute of the stored [is_stock_reservable] of line [i], run when
    one of its dependencies (state, product_id, reservation_ids) changes. *)
Definition recompute_line (i : nat) (st : state) : state :=
  set_lines (map (fun l => if Nat.eqb (l_id l) i
                           then with_line_reservable
                                  (_compute_is_stock_reservation st l) l
                           else l)) st.

Definition recompute_lines (ids : list nat) (st : state) : state :=
  fold_left (fun s i => recompute_line i s) ids st.

(** ** [write] values: a Python dict as an association list *)

Inductive o2m_cmd :=
  | O2MUpdate (rid : nat) (fs : list (string * Z))   (* (1, id, {...}) *)
  | O2MDelete (rid : nat).                           (* (2, id) *)

Inductive value :=
  | VFalse
  | VId (n : nat)
  | VNum (z : Z)
  | VStr (s : string)
  | VO2M (cmds : list o2m_cmd).

Definition vals := list (string * value).

Definition keys (v : vals) : list string := map fst v.

Definition str_mem (s : string) (xs : list string) : bool :=
  existsb (String.eqb s) xs.

Definition _test_block_on_reserve (v : vals) : list string :=
  let block_on_reserve := ["product_id"; "product_uom_id"; "type"] in
  List.filter (fun k => str_mem k block_on_reserve) (keys v).

Definition _test_update_on_reserve (v : vals) : list string :=
  let update_on_reserve := ["price_unit"; "product_uom_qty"] in
  List.filter (fun k => str_mem k update_on_reserve) (keys v).

(** Python truthiness of a set. *)
Definition nonempty {A} (xs : list A) : bool :=
  match xs with [] => false | _ => true end.

(** ** Host [sale.order.line] write: assigns the fields it is given *)

Definition set_line_field (k : string) (v : value) (l : line) : line :=
  let mk p u q pr :=
    {| l_id := l_id l; l_order := l_order l; l_name := l_name l;
       l_state := l_state l; l_product := p; l_uom := u; l_qty := q;
       l_price := pr; l_owner := l_owner l;
       l_reservable := l_reservable l |} in
  match v with
  | VId n => if String.eqb k "product_id"
             then mk (Some n) (l_uom l) (l_qty l) (l_price l)
             else if String.eqb k "product_uom"
             then mk (l_product l) n (l_qty l) (l_price l) else l
  | VFalse => if String.eqb k "product_id"
              then mk None (l_uom l) (l_qty l) (l_price l) else l
  | VNum z => if String.eqb k "product_uom_qty"
              then mk (l_product l) (l_uom l) z (l_price l)
              else if String.eqb k "price_unit"
              then mk (l_product l) (l_uom l) (l_qty l) z else l
  | _ => l
  end.

Definition set_res_field (kv : string * Z) (r : reservation) : reservation :=
  let '(k, z) := kv in
  if String.eqb k "product_uom_qty" then with_res_price_qty (r_price r) z r
  else if String.eqb k "price_unit" then with_res_price_qty z (r_qty r) r
  else r.

Definition apply_o2m (c : o2m_cmd) (rs : list reservation)
  : list reservation :=
  match c with
  | O2MUpdate rid fs =>
      map (fun r => if Nat.eqb (r_id r) rid
                    then fold_left (fun r kv => set_res_field kv r) fs r
                    else r) rs
  | O2MDelete rid => List.filter (fun r => negb (Nat.eqb (r_id r) rid)) rs
  end.

Definition o2m_commands (v : vals) : list o2m_cmd :=
  flat_map (fun '(k, x) =>
              match x with
              | VO2M cs => if String.eqb k "reservation_ids" then cs else []
              | _ => []
              end) v.

Fixpoint write_lines (ids : list nat) (v : vals) : M unit :=
  match ids with
  | [] => ret tt
  | i :: t =>
      _ <- browse_line i;;
      modify (set_lines (map (fun l =>
        if Nat.eqb (l_id l) i
        then fold_left (fun l '(k, x) => set_line_field k x l) v l
        else l)));;
      write_lines t v
  end.

Definition host_line_write (ids : list nat) (v : vals) : M bool :=
  write_lines ids v;;
  modify (set_res (fold_left (fun rs c => apply_o2m c rs) (o2m_commands v)));;
  modify (recompute_lines ids);;
  ret true.

(** ** [SaleOrderLine.onchange_product_id_qty] *)

(** Quantities are integers in units of the unit of measure's precision
    ([product_uom_qty] is a [Z] throughout), so [float_compare] at that
    precision is the comparison of the integers. *)
Definition float_compare (value1 value2 : Z) : Z :=
  match Z.compare value1 value2 with Lt => (-1)%Z | Eq => 0%Z | Gt => 1%Z end.

(** [{}] or [{'warning': {'title': ..., 'message': ...}}]; the message is
    the fixed text formatted with the line's quantity, kept as that
    quantity. *)
Inductive onchange_result :=
  | OnchangeNone
  | OnchangeWarning (title : string) (qty : Z).

Definition onchange_product_id_qty (st : state) (ln : line)
  : onchange_result :=
  let rs := reservation_ids st (l_id ln) in
  let reserved_qty := fold_left Z.add (map r_qty rs) 0%Z in
  let qty_equal := Z.eqb (float_compare (l_qty ln) reserved_qty) 0 in
  if negb qty_equal && (match rs with [] => false | _ => true end)
  then OnchangeWarning "Configuration Error!" (l_qty ln)
  else OnchangeNone.

(** ** [SaleOrderLine._update_reservation_price_qty] and [write] *)

Fixpoint _update_reservation_price_qty (ids : list nat) : M unit :=
  match ids with
  | [] => ret tt
  | i :: t =>
      ln <- browse_line i;;
      st <- get;;
      let rs := reservation_ids st i in
      match rs with
      | [] => _update_reservation_price_qty t
      | _ =>
          if Nat.ltb 1 (List.length rs) then raise (UserError msg_several)
          else
            modify (set_res (map (fun r =>
              if mem (r_id r) (map r_id rs)
              then with_res_price_qty (l_price ln) (l_qty ln) r
              else r)));;
            _update_reservation_price_qty t
      end
  end.

Definition write (ids : list nat) (v : vals) : M bool :=
  st <- get;;
  if nonempty (_test_block_on_reserve v) &&
     Nat.ltb 0 (List.length (mapped_reservation_ids st ids))
  then raise (UserError msg_block)
  else
    res <- host_line_write ids v;;
    (if nonempty (_test_update_on_reserve v)
     then _update_reservation_price_qty ids else ret tt);;
    ret res.

(** ** [stock.reservation] lifecycle *)

(** Modelled from the spec: [stock.reservation.reserve] and [release] of the
    stock_reserve module (not under src/), the "create/release lifecycle
    calls forwarded to a reservation entity".  Each call is recorded and
    moves the given reservations to reserved, resp. released. *)
Definition reserve (rids : list nat) : M unit :=
  modify (log (EvReserve rids));;
  modify (set_res (map (fun r => if mem (r_id r) rids
                                 then with_res_state RReserved r else r))).

Definition release (rids : list nat) : M unit :=
  modify (log (EvRelease rids));;
  modify (set_res (map (fun r => if mem (r_id r) rids
                                 then with_res_state RReleased r else r))).

Definition with_order_group (g : option nat) (o : order) : order :=
  {| o_id := o_id o; o_name := o_name o; o_state := o_state o;
     o_warehouse := o_warehouse o; o_group := g;
     o_partner_shipping := o_partner_shipping o;
     o_picking_policy := o_picking_policy o |}.

Definition with_order_state (s : string) (o : order) : order :=
  {| o_id := o_id o; o_name := o_name o; o_state := s;
     o_warehouse := o_warehouse o; o_group := o_group o;
     o_partner_shipping := o_partner_shipping o;
     o_picking_policy := o_picking_policy o |}.

Definition with_res_id (i : nat) (r : reservation) : reservation :=
  {| r_id := i; r_line := r_line r; r_product := r_product r;
     r_uom := r_uom r; r_qty := r_qty r; r_price := r_price r;
     r_name := r_name r; r_note := r_note r;
     r_date_validity := r_date_validity r; r_partner := r_partner r;
     r_restrict_partner := r_restrict_partner r; r_group := r_group r;
     r_state := r_state r |}.

(** Host [create] of a procurement group / a reservation: a fresh id.  A
    reservation linked to a line triggers the recompute of that line's
    stored [is_stock_reservable] (it depends on reservation_ids). *)
Definition create_group (gv : group) : M nat :=
  fun st =>
    let gid := st_next st in
    (Ok gid,
     {| st_products := st_products st; st_warehouses := st_warehouses st;
        st_rules := st_rules st; st_orders := st_orders st;
        st_lines := st_lines st;
        st_groups := st_groups st ++
          [{| g_id := gid; g_name := g_name gv; g_move_type := g_move_type gv;
              g_sale_id := g_sale_id gv; g_partner := g_partner gv |}];
        st_res := st_res st; st_next := S gid;
        st_log := st_log st ++ [EvCreateGroup gid] |}).

Definition create_reservation (rv : reservation) : M nat :=
  fun st =>
    let rid := st_next st in
    let st' :=
      {| st_products := st_products st; st_warehouses := st_warehouses st;
         st_rules := st_rules st; st_orders := st_orders st;
         st_lines := st_lines st; st_groups := st_groups st;
         st_res := st_res st ++ [with_res_id rid rv]; st_next := S rid;
         st_log := st_log st ++ [EvCreateReservation rid] |} in
    (Ok rid, match r_line rv with
             | Some l => recompute_line l st'
             | None => st'
             end).

(** ** [SaleOrderLine._prepare_stock_reservation] *)

Definition _prepare_stock_reservation (ln : line)
    (date_validity note : option string) : M reservation :=
  o <- browse_order (l_order ln);;
  match o_group o with
  | None =>
      gid <- create_group {| g_id := 0; g_name := o_name o;
                             g_move_type := o_picking_policy o;
                             g_sale_id := o_id o;
                             g_partner := o_partner_shipping o |};;
      modify (set_orders (map (fun o' =>
        if Nat.eqb (o_id o') (o_id o) then with_order_group (Some gid) o'
        else o')))
  | Some _ => ret tt
  end;;
  o <- browse_order (l_order ln);;
  ret {| r_id := 0; r_line := Some (l_id ln); r_product := l_product ln;
         r_uom := l_uom ln; r_qty := l_qty ln;
         r_date_validity := date_validity;
         r_name := o_name o ++ " (" ++ l_name ln ++ ")";
         r_note := note; r_price := l_price ln;
         r_partner := o_partner_shipping o;
         r_restrict_partner := l_owner ln;
         r_group := o_group o; r_state := RDraft |}.

(** ** [acquire_stock_reservation] and [release_stock_reservation] *)

(** [reservations |= created]: recordset union keeps the first occurrence. *)
Definition rs_union (acc new : list nat) : list nat :=
  acc ++ List.filter (fun i => negb (mem i acc)) new.

Fixpoint acquire_loop (ids : list nat) (date_validity note : option string)
    (reservations : list nat) : M (list nat) :=
  match ids with
  | [] => ret reservations
  | i :: t =>
      ln <- browse_line i;;
      if negb (l_reservable ln)
      then acquire_loop t date_validity note reservations
      else
        rv <- _prepare_stock_reservation ln date_validity note;;
        rid <- create_reservation rv;;
        acquire_loop t date_validity note (rs_union reservations [rid])
  end.

Definition acquire_stock_reservation (ids : list nat)
    (date_validity note : option string) : M bool :=
  reservations <- acquire_loop ids date_validity note [];;
  reserve reservations;;
  ret true.

Definition release_stock_reservation (ids : list nat) : M bool :=
  st <- get;;
  release (map r_id (mapped_reservation_ids st ids));;
  ret true.

(** ** [SaleOrder] lifecycle *)

Definition release_all_stock_reservation (oids : list nat) : M bool :=
  st <- get;;
  let lines := map l_id (List.filter (fun l => mem (l_order l) oids)
                                     (st_lines st)) in
  release_stock_reservation lines;;
  ret true.

(** Host confirm / cancel, reduced to the call and the order state. *)
Definition super_action_confirm (oids : list nat) : M bool :=
  modify (log (EvSuperConfirm oids));;
  modify (set_orders (map (fun o => if mem (o_id o) oids
                                    then with_order_state "sale" o else o)));;
  ret true.

Definition super_action_cancel (oids : list nat) : M bool :=
  modify (log (EvSuperCancel oids));;
  modify (set_orders (map (fun o => if mem (o_id o) oids
                                    then with_order_state "cancel" o else o)));;
  ret true.

Definition _action_confirm (oids : list nat) : M bool :=
  release_all_stock_reservation oids;;
  super_action_confirm oids.

Definition action_cancel (oids : list nat) : M bool :=
  release_all_stock_reservation oids;;
  super_action_cancel oids.

(** ** Example data *)

Definition ex_line (i o : nat) (p : option nat) (q pr : Z) (b : bool) : line :=
  {| l_id := i; l_order := o; l_name := "L"; l_state := "draft";
     l_product := p; l_uom := 1; l_qty := q; l_price := pr;
     l_owner := None; l_reservable := b |}.

Definition ex_res (i l : nat) (q pr : Z) : reservation :=
  {| r_id := i; r_line := Some l; r_product := Some 1; r_uom := 1;
     r_qty := q; r_price := pr; r_name := "R"; r_note := None;
     r_date_validity := None; r_partner := 7; r_restrict_partner := None;
     r_group := None; r_state := RReserved |}.

Definition ex_rule (i : nat) (rt w : option nat) (rs s : Z) (pm : string)
  : rule :=
  {| ru_id := i; ru_route := rt; ru_warehouse := w;
     ru_route_sequence := rs; ru_sequence := s; ru_procure_method := pm |}.

Definition ex_state (lines : list line) (res : list reservation) : state :=
  {| st_products :=
       [{| p_id := 1; p_type := "product"; p_routes := [10];
           p_categ_total_routes := [] |};
        {| p_id := 2; p_type := "service"; p_routes := [];
           p_categ_total_routes := [] |};
        {| p_id := 3; p_type := "consu"; p_routes := [];
           p_categ_total_routes := [] |}];
     st_warehouses := [{| w_id := 1; w_routes := [20] |}];
     st_rules :=
       [ex_rule 100 (Some 10) None 5 1 "make_to_stock";
        ex_rule 101 (Some 10) None 5 0 "make_to_order";
        ex_rule 102 (Some 20) (Some 1) 2 0 "make_to_stock";
        ex_rule 103 (Some 20) (Some 2) 1 0 "make_to_order"];
     st_orders :=
       [{| o_id := 1; o_name := "SO1"; o_state := "draft";
           o_warehouse := Some 1; o_group := None; o_partner_shipping := 7;
           o_picking_policy := "direct" |}];
     st_lines := lines; st_groups := []; st_res := res;
     st_next := 50; st_log := [] |}.

(** ** Auxiliary definitions used by the proofs *)

Definition lex_le (a b : rule) : Prop :=
  (ru_route_sequence a < ru_route_sequence b)%Z \/
  (ru_route_sequence a = ru_route_sequence b /\
   (ru_sequence a <= ru_sequence b)%Z).

(** The best rule of a domain: matching, and first in the search order. *)
Definition best (st : state) (P : rule -> Prop) (r : rule) : Prop :=
  In r (st_rules st) /\ P r /\
  forall r', In r' (st_rules st) -> P r' -> lex_le r r'.

(** The two tiers of [_get_line_rule], read off the domains. *)
Definition tier1 (st : state) (ln : line) (r : rule) : Prop :=
  exists rt, ru_route r = Some rt /\
             In rt (product_route_ids st ln).

Definition tier2 (st : state) (ln : line) (r : rule) : Prop :=
  (ru_warehouse r = line_warehouse st ln \/ ru_warehouse r = None) /\
  exists rt, ru_route r = Some rt /\ In rt (wh_route_ids st ln).

Ltac munfold :=
  unfold browse_line, browse_order, bind, get, ret, raise, modify in *;
  simpl in *.

Definition upd_ok (e : error) : Prop :=
  e = UserError msg_several \/ exists i, e = MissingError i.

Definition res_ids (st : state) : list nat := map r_id (st_res st).

(** After the step for line [i], a line with exactly one reservation has
    that reservation carry its price and quantity. *)
Definition synced (st : state) (l : nat) : Prop :=
  forall ln rv, line_of st l = Some ln -> reservation_ids st l = [rv] ->
                r_price rv = l_price ln /\ r_qty rv = l_qty ln.

Definition cex3_state : state :=
  ex_state [ex_line 1 1 (Some 1) 3 10 false; ex_line 2 1 (Some 1) 4 20 false]
           [ex_res 40 1 3 10; ex_res 41 2 4 20; ex_res 42 2 4 20].

Definition cex10_state : state :=
  ex_state [ex_line 1 1 (Some 1) 3 10 false] [ex_res 40 1 3 10].

Definition order_line_ids (st : state) (oids : list nat) : list nat :=
  map l_id (List.filter (fun l => mem (l_order l) oids) (st_lines st)).

Definition released_res (rids : list nat) (rs : list reservation)
  : list reservation :=
  map (fun r => if mem (r_id r) rids then with_res_state RReleased r else r) rs.

Definition line_data (l : line) :=
  (l_id l, l_order l, l_name l, l_state l, l_product l, l_uom l, l_qty l,
   l_price l, l_owner l).

(** Facts kept along the loop: line data, existing orders and their
    groups once set, groups, ids, and the reservation table only grows. *)
Definition ext (s s' : state) : Prop :=
  (forall j, option_map line_data (line_of s' j) =
             option_map line_data (line_of s j)) /\
  (forall j o, order_of s j = Some o ->
     exists o', order_of s' j = Some o' /\
                (o_group o <> None -> o_group o' = o_group o)) /\
  (forall gr, In gr (st_groups s) -> In gr (st_groups s')) /\
  st_next s <= st_next s' /\
  (exists created, st_res s' = (st_res s ++ created)%list) /\
  (exists evs, st_log s' = (st_log s ++ evs)%list).

Definition prepared (ln : line) (o : order) (date_validity note : option string)
  : reservation :=
  {| r_id := 0; r_line := Some (l_id ln); r_product := l_product ln;
     r_uom := l_uom ln; r_qty := l_qty ln;
     r_date_validity := date_validity;
     r_name := o_name o ++ " (" ++ l_name ln ++ ")";
     r_note := note; r_price := l_price ln;
     r_partner := o_partner_shipping o;
     r_restrict_partner := l_owner ln;
     r_group := o_group o; r_state := RDraft |}.

Definition reservable_at (s : state) (l : nat) : bool :=
  match line_of s l with Some ln => l_reservable ln | None => false end.

Definition count_line (l : nat) (rs : list reservation) : nat :=
  List.length (List.filter (fun r => opt_eqb (r_line r) (Some l)) rs).

(** Orders that had no procurement group in [s0] and have one in [s] got
    a group created for them. *)
Definition groups_made (s0 s : state) : Prop :=
  forall j o0 o g, order_of s0 j = Some o0 -> o_group o0 = None ->
    order_of s j = Some o -> o_group o = Some g ->
    exists gr, In gr (st_groups s) /\ g_id gr = g /\ g_sale_id gr = j.

(** A reservation created for a reservable line of the recordset, copying
    the line, under the order's procurement group. *)
Definition created_ok (s0 s : state) (ids : list nat) (r : reservation)
  : Prop :=
  exists ln, In (l_id ln) ids /\ line_of s0 (l_id ln) = Some ln /\
    l_reservable ln = true /\
    r_line r = Some (l_id ln) /\ r_product r = l_product ln /\
    r_uom r = l_uom ln /\ r_qty r = l_qty ln /\ r_price r = l_price ln /\
    exists o, order_of s (l_order ln) = Some o /\ r_group r = o_group o /\
              r_group r <> None.

Definition reserved_res (rids : list nat) (rs : list reservation)
  : list reservation :=
  map (fun r => if mem (r_id r) rids then with_res_state RReserved r else r) rs.

Definition wit_state : state :=
  ex_state [ex_line 1 1 (Some 1) 3 10 true; ex_line 2 1 (Some 3) 1 5 true;
            ex_line 3 1 (Some 2) 1 5 false] [].

(** [r'] is [r] with at most its price and quantity changed, and only if
    [r] is linked to one of the lines [ids]. *)
Definition res_upd (ids : list nat) (r r' : reservation) : Prop :=
  r' = with_res_price_qty (r_price r') (r_qty r') r /\
  (r' = r \/ exists l, r_line r = Some l /\ In l ids).

(** The reservations as left by [_update_reservation_price_qty] when it
    has gone through the lines [pre] of the recordset: a reservation of a
    line of [pre] carries that line's price and quantity. *)
Definition updated_before (st : state) (pre : list nat) (r : reservation)
  : reservation :=
  match r_line r with
  | Some l =>
      if mem l pre then
        match line_of st l with
        | Some ln => with_res_price_qty (l_price ln) (l_qty ln) r
        | None => r
        end
      else r
  | None => r
  end.

(** Further example data. *)
Definition ex_order1 : order :=
  {| o_id := 1; o_name := "SO1"; o_state := "draft"; o_warehouse := Some 1;
     o_group := None; o_partner_shipping := 7; o_picking_policy := "direct" |}.

Definition stale_qty_state : state :=
  ex_state [ex_line 1 1 (Some 1) 5 12 false]
           [ex_res 40 1 3 10; ex_res 41 2 3 10].

(** * Proofs *)

(** ** Order-level compute *)

Lemma compute_flags_fold (st : state) (ls : list line) (h r : bool) :
  fold_left (fun '(has, reservable) ln =>
               (match reservation_ids st (l_id ln) with [] => has | _ => true end,
                if l_reservable ln then true else reservable)) ls (h, r) =
  (h || existsb (fun ln => nonempty (reservation_ids st (l_id ln))) ls,
   r || existsb l_reservable ls).
Proof.
  revert h r; induction ls as [|ln ls IH]; intros h r; simpl.
  - now rewrite !orb_false_r.
  - rewrite IH. f_equal.
    + destruct (reservation_ids st (l_id ln)); simpl;
        [reflexivity | now rewrite orb_true_r].
    + destruct (l_reservable ln); simpl; [now rewrite orb_true_r | reflexivity].
Qed.

Lemma existsb_In_iff {A} (f : A -> bool) (l : list A) :
  existsb f l = true <-> exists x, In x l /\ f x = true.
Proof. apply existsb_exists. Qed.

(** C4: the order is reservable iff one of its lines is and the order is
    a draft or sent quotation; it has a reservation iff one of its lines
    has a non-empty reservation_ids. *)
Theorem compute_stock_reservation_flags (st : state) (o : order) :
  (fst (_compute_stock_reservation st o) = true <->
     (exists ln, In ln (order_lines st o) /\ l_reservable ln = true) /\
     (o_state o = "draft" \/ o_state o = "sent")) /\
  (snd (_compute_stock_reservation st o) = true <->
     exists ln, In ln (order_lines st o) /\ reservation_ids st (l_id ln) <> []).
Proof.
  unfold _compute_stock_reservation. rewrite compute_flags_fold. simpl.
  split.
  - rewrite <- existsb_In_iff.
    destruct (String.eqb_spec (o_state o) "draft") as [Hd|Hd];
    [|destruct (String.eqb_spec (o_state o) "sent") as [Hs|Hs]]; simpl.
    + tauto.
    + tauto.
    + split; [discriminate|intros [_ [H|H]]; contradiction].
  - rewrite existsb_In_iff. split.
    + intros [ln [Hin Hne]]. exists ln. split; [exact Hin|].
      destruct (reservation_ids st (l_id ln)); simpl in *; congruence.
    + intros [ln [Hin Hne]]. exists ln. split; [exact Hin|].
      destruct (reservation_ids st (l_id ln)); simpl in *; congruence.
Qed.

(** ** Line-level compute *)

(** C8: a line is computed reservable only if it has no reservation, is a
    draft, has a product that is not a service, and its applicable rule
    is not make_to_order. *)
Theorem is_stock_reservable_requires (st : state) (ln : line)
    (H : _compute_is_stock_reservation st ln = true) :
  reservation_ids st (l_id ln) = [] /\
  l_state ln = "draft" /\
  l_product ln <> None /\
  (forall p pr, l_product ln = Some p -> product_of st p = Some pr ->
                p_type pr <> "service") /\
  _get_procure_method st ln <> Some "make_to_order".
Proof.
  unfold _compute_is_stock_reservation in H.
  destruct (reservation_ids st (l_id ln)) eqn:Er;
    [|rewrite andb_false_r in H; discriminate].
  rewrite andb_true_r in H.
  destruct (String.eqb_spec (l_state ln) "draft") as [Hd|Hd];
    [|discriminate]. simpl in H.
  destruct (procure_is_mto st ln) eqn:Em; [discriminate|].
  destruct (l_product ln) as [p|] eqn:Ep; [|discriminate]. simpl in H.
  unfold is_service in H. rewrite Ep in H.
  repeat split; try congruence.
  - intros p' pr Hp Hpr. inversion Hp; subst p'.
    rewrite Hpr in H. destruct (String.eqb_spec (p_type pr) "service");
      [discriminate|assumption].
  - intro Hm. unfold procure_is_mto in Em. rewrite Hm in Em. discriminate.
Qed.

(** ** Rule search *)

Lemma key_le_spec (a b : rule) : key_le a b = true <-> lex_le a b.
Proof.
  unfold key_le, lex_le. rewrite orb_true_iff, andb_true_iff,
    Z.ltb_lt, Z.eqb_eq, Z.leb_le. tauto.
Qed.

Lemma key_le_refl (a : rule) : key_le a a = true.
Proof. apply key_le_spec. right. split; lia. Qed.

Lemma key_le_total (a b : rule) : key_le a b = false -> key_le b a = true.
Proof.
  intro H. apply key_le_spec. unfold key_le in H.
  rewrite orb_false_iff, andb_false_iff, Z.ltb_ge, Z.eqb_neq, Z.leb_gt in H.
  unfold lex_le. lia.
Qed.

Lemma key_le_trans (a b c : rule) :
  key_le a b = true -> key_le b c = true -> key_le a c = true.
Proof. rewrite !key_le_spec. unfold lex_le. lia. Qed.

Lemma insert_rule_In (x y : rule) (s : list rule) :
  In y (insert_rule x s) <-> x = y \/ In y s.
Proof.
  induction s as [|h s IH]; simpl; [tauto|].
  destruct (key_le h x); simpl; [rewrite IH|]; tauto.
Qed.

Lemma sort_rules_In (y : rule) (l : list rule) :
  In y (sort_rules l) <-> In y l.
Proof.
  induction l as [|x l IH]; simpl; [tauto|].
  rewrite insert_rule_In, IH. intuition.
Qed.

Lemma sort_rules_head (l : list rule) (r : rule) (t : list rule) :
  sort_rules l = r :: t ->
  In r l /\ forall y, In y l -> key_le r y = true.
Proof.
  revert r t; induction l as [|x l IH]; intros r t Hs; [discriminate|].
  simpl in Hs. destruct (sort_rules l) as [|h t'] eqn:Es.
  - simpl in Hs. inversion Hs; subst r t.
    assert (Hl : forall y, ~ In y l)
      by (intros y Hy; apply (sort_rules_In y l) in Hy; rewrite Es in Hy;
          contradiction).
    split; [now left|]. intros y [<-|Hy]; [apply key_le_refl|].
    exfalso; exact (Hl y Hy).
  - destruct (IH h t' eq_refl) as [Hh Hmin].
    simpl in Hs. destruct (key_le h x) eqn:Ehx.
    + inversion Hs; subst r.
      split; [now right|]. intros y [<-|Hy]; [exact Ehx|exact (Hmin y Hy)].
    + inversion Hs; subst r.
      split; [now left|]. intros y [<-|Hy]; [apply key_le_refl|].
      apply key_le_trans with h; [apply key_le_total; exact Ehx|].
      exact (Hmin y Hy).
Qed.

Lemma sort_rules_nil (l : list rule) : sort_rules l = [] -> l = [].
Proof.
  destruct l as [|x l]; [reflexivity|]. simpl.
  destruct (sort_rules l) as [|h t]; simpl;
    [discriminate|destruct (key_le h x); discriminate].
Qed.

Lemma search_rules_spec (st : state) (d : list dom_item) :
  match search_rules st d 1 with
  | [] => forall r, In r (st_rules st) -> eval_domain r d = false
  | r :: _ => best st (fun r => eval_domain r d = true) r
  end.
Proof.
  unfold search_rules.
  destruct (sort_rules (List.filter (fun r => eval_domain r d) (st_rules st)))
    as [|r t] eqn:Es; simpl.
  - apply sort_rules_nil in Es. intros r Hr.
    destruct (eval_domain r d) eqn:E; [|reflexivity].
    assert (In r (List.filter (fun r => eval_domain r d) (st_rules st)))
      by (apply filter_In; auto).
    rewrite Es in H; contradiction.
  - destruct (sort_rules_head _ _ _ Es) as [Hin Hmin].
    apply filter_In in Hin. destruct Hin as [Hin Hd].
    split; [exact Hin|split; [exact Hd|]].
    intros r' Hr' Hd'. apply key_le_spec, Hmin, filter_In. auto.
Qed.

Lemma mem_In (x : nat) (xs : list nat) : mem x xs = true <-> In x xs.
Proof.
  unfold mem. rewrite existsb_exists. split.
  - intros [y [Hy E]]. apply Nat.eqb_eq in E. now subst.
  - intros H. exists x. split; [exact H|apply Nat.eqb_refl].
Qed.

Lemma opt_eqb_eq (a b : option nat) : opt_eqb a b = true <-> a = b.
Proof.
  destruct a, b; simpl; split; intro H; try discriminate; try reflexivity.
  - apply Nat.eqb_eq in H. now subst.
  - inversion H. apply Nat.eqb_refl.
Qed.

Lemma route_in_spec (r : rule) (ids : list nat) :
  eval_cond r (CRouteIn ids) = true <->
  exists rt, ru_route r = Some rt /\ In rt ids.
Proof.
  simpl. destruct (ru_route r) as [x|].
  - rewrite mem_In. split; [intro H; now exists x|].
    intros [rt [E H]]. inversion E; now subst.
  - split; [discriminate|intros [rt [E _]]; discriminate].
Qed.

Lemma tier1_domain (st : state) (ln : line) (r : rule) :
  eval_domain r [DLeaf (CRouteIn (product_route_ids st ln))] = true <->
  tier1 st ln r.
Proof.
  unfold eval_domain, tier1. simpl. rewrite andb_true_r.
  apply route_in_spec.
Qed.

Lemma tier2_domain (st : state) (ln : line) (r : rule) :
  eval_domain r (fallback_domain st ln) = true <-> tier2 st ln r.
Proof.
  unfold eval_domain, fallback_domain, tier2. simpl.
  rewrite andb_true_r, andb_true_iff, orb_true_iff, !opt_eqb_eq.
  rewrite <- route_in_spec. reflexivity.
Qed.

Lemma best_iff (st : state) (P Q : rule -> Prop) (r : rule) :
  (forall r, P r <-> Q r) -> best st P r -> best st Q r.
Proof.
  intros HPQ [Hin [HP Hmin]]. split; [exact Hin|split; [now apply HPQ|]].
  intros r' Hr' HQ. apply Hmin; [exact Hr'|now apply HPQ].
Qed.

(** C5: two-tier lookup.  The first tier (rules on the product's and its
    category's routes) wins when it has a rule, the first in the order
    (route_sequence, sequence); otherwise the first rule of the fallback
    tier (warehouse or no warehouse, on the warehouse's routes); False
    when both are empty. *)
Theorem get_line_rule_two_tier (st : state) (ln : line) :
  ((exists r, In r (st_rules st) /\ tier1 st ln r) ->
     exists r, _get_line_rule st ln = Some r /\ best st (tier1 st ln) r) /\
  ((~ exists r, In r (st_rules st) /\ tier1 st ln r) ->
   (exists r, In r (st_rules st) /\ tier2 st ln r) ->
     exists r, _get_line_rule st ln = Some r /\ best st (tier2 st ln) r) /\
  ((~ exists r, In r (st_rules st) /\ tier1 st ln r) ->
   (~ exists r, In r (st_rules st) /\ tier2 st ln r) ->
     _get_line_rule st ln = None).
Proof.
  pose proof (search_rules_spec st [DLeaf (CRouteIn (product_route_ids st ln))])
    as S1.
  pose proof (search_rules_spec st (fallback_domain st ln)) as S2.
  unfold _get_line_rule.
  destruct (search_rules st [DLeaf (CRouteIn (product_route_ids st ln))])
    as [|r1 t1].
  - assert (N1 : ~ exists r, In r (st_rules st) /\ tier1 st ln r).
    { intros [r [Hr Ht]]. apply tier1_domain in Ht. rewrite S1 in Ht;
        [discriminate|exact Hr]. }
    split; [intro H; contradiction|].
    destruct (search_rules st (fallback_domain st ln)) as [|r2 t2].
    + split.
      * intros _ [r [Hr Ht]]. apply tier2_domain in Ht.
        rewrite S2 in Ht; [discriminate|exact Hr].
      * intros _ _. reflexivity.
    + split.
      * intros _ _. exists r2. split; [reflexivity|].
        eapply best_iff; [|exact S2]. intro r. apply tier2_domain.
      * intros _ N2. exfalso. apply N2. exists r2.
        destruct S2 as [Hin [Hd _]]. split; [exact Hin|].
        now apply tier2_domain.
  - assert (E1 : exists r, In r (st_rules st) /\ tier1 st ln r).
    { exists r1. destruct S1 as [Hin [Hd _]]. split; [exact Hin|].
      now apply tier1_domain. }
    split; [|split; intro N; contradiction].
    intros _. exists r1. split; [reflexivity|].
    eapply best_iff; [|exact S1]. intro r. apply tier1_domain.
Qed.

(** ** The write path *)

Lemma write_lines_res (ids : list nat) (v : vals) (st : state) :
  st_res (snd (write_lines ids v st)) = st_res st /\
  forall e, fst (write_lines ids v st) = Err e -> exists i, e = MissingError i.
Proof.
  revert st; induction ids as [|i ids IH]; intro st; simpl.
  - split; [reflexivity|discriminate].
  - munfold. destruct (line_of st i) as [ln|]; simpl.
    + destruct (IH (set_lines (map (fun l =>
        if Nat.eqb (l_id l) i
        then fold_left (fun l '(k, x) => set_line_field k x l) v l
        else l)) st)) as [H1 H2].
      split; [exact H1|exact H2].
    + split; [reflexivity|intros e He; inversion He; now exists i].
Qed.

Lemma recompute_lines_res (ids : list nat) (st : state) :
  st_res (recompute_lines ids st) = st_res st.
Proof.
  unfold recompute_lines. revert st; induction ids as [|i ids IH];
    intro st; simpl; [reflexivity|]. rewrite IH. reflexivity.
Qed.

Lemma host_line_write_spec (ids : list nat) (v : vals) (st : state) :
  match host_line_write ids v st with
  | (Ok _, st') =>
      st_res st' = fold_left (fun rs c => apply_o2m c rs) (o2m_commands v)
                             (st_res st)
  | (Err e, st') => st_res st' = st_res st /\ exists i, e = MissingError i
  end.
Proof.
  unfold host_line_write, bind, modify, ret.
  destruct (write_lines_res ids v st) as [H1 H2].
  destruct (write_lines ids v st) as [[u|e] st1]; simpl in *.
  - rewrite recompute_lines_res. simpl. now rewrite H1.
  - split; [exact H1|now apply H2].
Qed.

Lemma update_reservation_errors (ids : list nat) (st : state) (e : error)
    (st' : state) :
  _update_reservation_price_qty ids st = (Err e, st') -> upd_ok e.
Proof.
  revert st; induction ids as [|i ids IH]; intros st H; simpl in H.
  - discriminate.
  - munfold.
    destruct (line_of st i) as [ln|]; simpl in H.
    + destruct (reservation_ids st i) as [|r0 rs] eqn:Er.
      * eapply IH; exact H.
      * destruct (Nat.ltb 1 (List.length (r0 :: rs))).
        -- inversion H. now left.
        -- eapply IH; exact H.
    + inversion H. right. now exists i.
Qed.

Lemma block_keys_iff (v : vals) :
  nonempty (_test_block_on_reserve v) = true <->
  exists k, In k (keys v) /\ In k ["product_id"; "product_uom_id"; "type"].
Proof.
  unfold _test_block_on_reserve, nonempty.
  destruct (List.filter _ (keys v)) as [|k ks] eqn:E; split.
  - discriminate.
  - intros [k [Hk Hb]].
    assert (Hin : In k (List.filter (fun k => str_mem k
              ["product_id"; "product_uom_id"; "type"]) (keys v))).
    { apply filter_In. split; [exact Hk|]. unfold str_mem.
      apply existsb_exists. exists k. split; [exact Hb|apply String.eqb_refl]. }
    rewrite E in Hin. contradiction.
  - intros _. assert (Hin : In k (k :: ks)) by now left.
    rewrite <- E in Hin. apply filter_In in Hin. destruct Hin as [Hk Hm].
    exists k. split; [exact Hk|]. unfold str_mem in Hm.
    apply existsb_exists in Hm. destruct Hm as [k' [Hk' Eq]].
    apply String.eqb_eq in Eq. now subst.
  - reflexivity.
Qed.

Lemma update_keys_iff (v : vals) :
  nonempty (_test_update_on_reserve v) = true <->
  exists k, In k (keys v) /\ In k ["price_unit"; "product_uom_qty"].
Proof.
  unfold _test_update_on_reserve, nonempty.
  destruct (List.filter _ (keys v)) as [|k ks] eqn:E; split.
  - discriminate.
  - intros [k [Hk Hb]].
    assert (Hin : In k (List.filter (fun k => str_mem k
              ["price_unit"; "product_uom_qty"]) (keys v))).
    { apply filter_In. split; [exact Hk|]. unfold str_mem.
      apply existsb_exists. exists k. split; [exact Hb|apply String.eqb_refl]. }
    rewrite E in Hin. contradiction.
  - intros _. assert (Hin : In k (k :: ks)) by now left.
    rewrite <- E in Hin. apply filter_In in Hin. destruct Hin as [Hk Hm].
    exists k. split; [exact Hk|]. unfold str_mem in Hm.
    apply existsb_exists in Hm. destruct Hm as [k' [Hk' Eq]].
    apply String.eqb_eq in Eq. now subst.
  - reflexivity.
Qed.

Lemma reservation_ids_In (st : state) (l : nat) (rv : reservation) :
  In rv (reservation_ids st l) <-> In rv (st_res st) /\ r_line rv = Some l.
Proof. unfold reservation_ids. rewrite filter_In, opt_eqb_eq. tauto. Qed.

Lemma mapped_reservation_ids_In (st : state) (ids : list nat)
    (rv : reservation) :
  In rv (mapped_reservation_ids st ids) <->
  exists l, In l ids /\ In rv (reservation_ids st l).
Proof.
  unfold mapped_reservation_ids. rewrite filter_In. split.
  - intros [Hin Hm]. destruct (r_line rv) as [l|] eqn:El; [|discriminate].
    apply mem_In in Hm. exists l. split; [exact Hm|].
    apply reservation_ids_In. auto.
  - intros [l [Hl Hr]]. apply reservation_ids_In in Hr.
    destruct Hr as [Hin El]. rewrite El. split; [exact Hin|now apply mem_In].
Qed.

Lemma mapped_nonempty (st : state) (ids : list nat) :
  Nat.ltb 0 (List.length (mapped_reservation_ids st ids)) = true <->
  exists l rv, In l ids /\ In rv (reservation_ids st l).
Proof.
  rewrite Nat.ltb_lt. split.
  - destruct (mapped_reservation_ids st ids) as [|rv t] eqn:E; simpl;
      [lia|intros _].
    assert (Hin : In rv (rv :: t)) by now left. rewrite <- E in Hin.
    apply mapped_reservation_ids_In in Hin. destruct Hin as [l [Hl Hr]].
    now exists l, rv.
  - intros [l [rv [Hl Hr]]].
    assert (Hin : In rv (mapped_reservation_ids st ids))
      by (apply mapped_reservation_ids_In; now exists l).
    destruct (mapped_reservation_ids st ids); simpl in *; [contradiction|lia].
Qed.

Lemma msg_block_several : msg_block <> msg_several.
Proof. unfold msg_block, msg_several. discriminate. Qed.

(** C1: writing product_id, product_uom_id or type on lines of which one
    is reserved raises before the host write and leaves the state as it
    was; with no reserved line the write goes through to the host. *)
Theorem write_blocks_on_reserve (ids : list nat) (v : vals) (st : state)
    (Hk : exists k, In k (keys v) /\
                    In k ["product_id"; "product_uom_id"; "type"]) :
  ((exists l rv, In l ids /\ In rv (reservation_ids st l)) ->
     write ids v st = (Err (UserError msg_block), st)) /\
  ((forall l, In l ids -> reservation_ids st l = []) ->
     write ids v st =
       (res <- host_line_write ids v;;
        (if nonempty (_test_update_on_reserve v)
         then _update_reservation_price_qty ids else ret tt);;
        ret res) st /\
     fst (write ids v st) <> Err (UserError msg_block)).
Proof.
  apply block_keys_iff in Hk. split.
  - intro Hr. apply mapped_nonempty in Hr.
    unfold write, bind, get. simpl. rewrite Hk, Hr. reflexivity.
  - intro Hn.
    assert (Hm : Nat.ltb 0 (List.length (mapped_reservation_ids st ids))
                 = false).
    { destruct (Nat.ltb _ _) eqn:E; [|reflexivity].
      apply mapped_nonempty in E. destruct E as [l [rv [Hl Hr]]].
      rewrite (Hn l Hl) in Hr. contradiction. }
    assert (Hw : write ids v st =
       (res <- host_line_write ids v;;
        (if nonempty (_test_update_on_reserve v)
         then _update_reservation_price_qty ids else ret tt);;
        ret res) st)
      by (unfold write at 1, bind at 1, get; simpl; now rewrite Hk, Hm).
    split; [exact Hw|]. rewrite Hw.
    pose proof (host_line_write_spec ids v st) as Hh.
    unfold bind at 1. destruct (host_line_write ids v st) as [[b|e] st1].
    + unfold bind. destruct (nonempty (_test_update_on_reserve v)).
      * destruct (_update_reservation_price_qty ids st1) as [[u|e] st2] eqn:Eu;
          simpl; [discriminate|].
        apply update_reservation_errors in Eu.
        intro He. injection He as He. subst e.
        destruct Eu as [Eu|[i Eu]].
        -- apply msg_block_several.
           exact (f_equal (fun e => match e with
                                    | UserError m => m
                                    | MissingError _ => EmptyString
                                    end) Eu).
        -- discriminate.
      * simpl. discriminate.
    + simpl. destruct Hh as [_ [i ->]]. discriminate.
Qed.

(** ** Keeping reservations in line with their order line *)

Lemma nodup_map_inj {A B} (f : A -> B) (l : list A) (a b : A) :
  NoDup (map f l) -> In a l -> In b l -> f a = f b -> a = b.
Proof.
  induction l as [|x l IH]; simpl; [tauto|].
  intros Hnd Ha Hb E. inversion Hnd as [|y ys Hx Hnd']; subst.
  destruct Ha as [<-|Ha], Hb as [<-|Hb]; auto.
  - exfalso. apply Hx. rewrite E. now apply in_map.
  - exfalso. apply Hx. rewrite <- E. now apply in_map.
Qed.

Lemma nodup_map_filter {A B} (f : A -> B) (p : A -> bool) (l : list A) :
  NoDup (map f l) -> NoDup (map f (List.filter p l)).
Proof.
  induction l as [|x l IH]; simpl; [auto|]. intro Hnd.
  inversion Hnd as [|y ys Hx Hnd']; subst.
  destruct (p x); simpl; [|now apply IH].
  constructor; [|now apply IH].
  intro Hin. apply Hx. apply in_map_iff in Hin. destruct Hin as [z [Ez Hz]].
  apply filter_In in Hz. rewrite <- Ez. apply in_map. tauto.
Qed.

Lemma filter_map_comm {A} (p : A -> bool) (f : A -> A) (l : list A) :
  (forall x, p (f x) = p x) ->
  List.filter p (map f l) = map f (List.filter p l).
Proof.
  intro Hp. induction l as [|x l IH]; simpl; [reflexivity|].
  rewrite Hp. destruct (p x); simpl; now rewrite IH.
Qed.

Lemma set_res_field_id (kv : string * Z) (r : reservation) :
  r_id (set_res_field kv r) = r_id r /\
  r_line (set_res_field kv r) = r_line r.
Proof.
  destruct kv as [k z]. unfold set_res_field.
  destruct (String.eqb k "product_uom_qty"); [simpl; auto|].
  destruct (String.eqb k "price_unit"); simpl; auto.
Qed.

Lemma set_res_field_fold_id (fs : list (string * Z)) (r : reservation) :
  r_id (fold_left (fun r kv => set_res_field kv r) fs r) = r_id r /\
  r_line (fold_left (fun r kv => set_res_field kv r) fs r) = r_line r.
Proof.
  revert r; induction fs as [|kv fs IH]; intro r; simpl; [auto|].
  destruct (IH (set_res_field kv r)) as [H1 H2].
  destruct (set_res_field_id kv r) as [H3 H4].
  split; congruence.
Qed.

Lemma apply_o2m_nodup (cs : list o2m_cmd) (rs : list reservation) :
  NoDup (map r_id rs) ->
  NoDup (map r_id (fold_left (fun rs c => apply_o2m c rs) cs rs)).
Proof.
  revert rs; induction cs as [|c cs IH]; intros rs Hnd; simpl; [auto|].
  apply IH. destruct c as [rid fs|rid]; simpl.
  - rewrite map_map.
    replace (map (fun x => r_id (if Nat.eqb (r_id x) rid
                   then fold_left (fun r kv => set_res_field kv r) fs x
                   else x)) rs) with (map r_id rs); [exact Hnd|].
    apply map_ext. intro x. destruct (Nat.eqb (r_id x) rid); [|reflexivity].
    symmetry. apply set_res_field_fold_id.
  - now apply nodup_map_filter.
Qed.

Lemma update_step (st : state) (i : nat) (ln : line) (rv0 : reservation) :
  NoDup (res_ids st) ->
  reservation_ids st i = [rv0] ->
  let st1 := set_res (map (fun r =>
               if mem (r_id r) (map r_id [rv0])
               then with_res_price_qty (l_price ln) (l_qty ln) r
               else r)) st in
  res_ids st1 = res_ids st /\
  reservation_ids st1 i = [with_res_price_qty (l_price ln) (l_qty ln) rv0] /\
  (forall l, l <> i -> reservation_ids st1 l = reservation_ids st l).
Proof.
  intros Hnd Hi st1.
  set (g := fun r => if mem (r_id r) (map r_id [rv0])
                     then with_res_price_qty (l_price ln) (l_qty ln) r
                     else r).
  assert (Hg : forall r, r_id (g r) = r_id r /\ r_line (g r) = r_line r)
    by (intro r; unfold g; destruct (mem _ _); simpl; auto).
  assert (Hres : forall l, reservation_ids st1 l = map g (reservation_ids st l)).
  { intro l. unfold reservation_ids, st1. simpl.
    apply filter_map_comm. intro x.
    match goal with |- context [if ?c then _ else _] => destruct c end;
    reflexivity. }
  split; [|split].
  - unfold res_ids, st1. simpl. rewrite map_map.
    apply map_ext. intro x.
    match goal with |- context [if ?c then _ else _] => destruct c end;
    reflexivity.
  - rewrite Hres, Hi. simpl. unfold g. simpl. now rewrite Nat.eqb_refl.
  - intros l Hl. rewrite Hres. rewrite <- (map_id (reservation_ids st l)) at 2.
    apply map_ext_in. intros r Hr. unfold g. simpl.
    destruct (Nat.eqb_spec (r_id r) (r_id rv0)) as [E|E]; simpl; [|reflexivity].
    exfalso. apply Hl.
    assert (Hr0 : In rv0 (reservation_ids st i)) by (rewrite Hi; now left).
    apply reservation_ids_In in Hr, Hr0.
    assert (r = rv0) by (eapply nodup_map_inj; [exact Hnd|apply Hr|apply Hr0|exact E]).
    subst r. destruct Hr as [_ H1], Hr0 as [_ H2]. rewrite H1 in H2.
    now injection H2.
Qed.

Lemma update_reservation_ok (ids : list nat) (st st' : state) (u : unit) :
  NoDup (res_ids st) ->
  _update_reservation_price_qty ids st = (Ok u, st') ->
  st_lines st' = st_lines st /\ NoDup (res_ids st') /\
  (forall l, synced st l -> synced st' l) /\
  (forall l, In l ids -> synced st' l).
Proof.
  revert st; induction ids as [|i ids IH]; intros st Hnd H.
  - simpl in H. inversion H; subst. split; [reflexivity|]. split; [exact Hnd|].
    split; [auto|intros l []].
  - simpl in H. munfold.
    destruct (line_of st i) as [ln|] eqn:El; [|discriminate].
    destruct (reservation_ids st i) as [|rv0 rs] eqn:Er.
    + destruct (IH st Hnd H) as [H1 [H2 [H3 H4]]].
      split; [exact H1|split; [exact H2|split; [exact H3|]]].
      intros l [<-|Hl]; [|now apply H4].
      apply H3. intros ln' rv Hl' Hr. rewrite Er in Hr. discriminate.
    + destruct (Nat.ltb 1 (List.length (rv0 :: rs))) eqn:Elen;
        [discriminate|].
      destruct rs as [|r1 rs]; [|simpl in Elen; discriminate].
      destruct (update_step st i ln rv0 Hnd Er) as [S1 [S2 S3]].
      set (st1 := set_res _ st) in *.
      assert (Hnd1 : NoDup (res_ids st1)) by (rewrite S1; exact Hnd).
      destruct (IH st1 Hnd1 H) as [H1 [H2 [H3 H4]]].
      assert (Hl1 : st_lines st1 = st_lines st) by reflexivity.
      split; [now rewrite H1|split; [exact H2|split]].
      * intros l Hs. apply H3. intros ln' rv Hl' Hr.
        destruct (Nat.eq_dec l i) as [->|Hne].
        -- unfold line_of in Hl'. rewrite Hl1 in Hl'. fold (line_of st i) in Hl'.
           rewrite El in Hl'. injection Hl' as <-.
           rewrite S2 in Hr. injection Hr as <-. simpl. auto.
        -- rewrite (S3 l Hne) in Hr. apply Hs; [|exact Hr].
           unfold line_of in *. now rewrite Hl1 in Hl'.
      * intros l [<-|Hl]; [|now apply H4].
        apply H3. intros ln' rv Hl' Hr.
        unfold line_of in Hl'. rewrite Hl1 in Hl'. fold (line_of st i) in Hl'.
        rewrite El in Hl'. injection Hl' as <-.
        rewrite S2 in Hr. injection Hr as <-. simpl. auto.
Qed.

Lemma write_ok_inv (ids : list nat) (v : vals) (st : state) (r : bool)
    (st' : state) :
  write ids v st = (Ok r, st') ->
  exists st1, host_line_write ids v st = (Ok r, st1) /\
    (if nonempty (_test_update_on_reserve v)
     then _update_reservation_price_qty ids else ret tt) st1 = (Ok tt, st').
Proof.
  unfold write, bind at 1, get. simpl.
  destruct (_ && _); [unfold raise; discriminate|].
  unfold bind. destruct (host_line_write ids v st) as [[b|e] st1]; [|discriminate].
  destruct ((if nonempty (_test_update_on_reserve v)
             then _update_reservation_price_qty ids else ret tt) st1)
    as [[[]|e] st2] eqn:E; [|discriminate].
  unfold ret. intro H. inversion H; subst. now exists st1.
Qed.

(** C2: after a successful write of price_unit or product_uom_qty, every
    line of the recordset with exactly one reservation has that
    reservation carry the line's price and quantity. *)
Theorem write_syncs_reservations (ids : list nat) (v : vals) (st : state)
    (r : bool) (st' : state)
    (Hu : exists k, In k (keys v) /\ In k ["price_unit"; "product_uom_qty"])
    (Hnd : NoDup (res_ids st))
    (Hw : write ids v st = (Ok r, st')) :
  forall l ln rv, In l ids -> line_of st' l = Some ln ->
    reservation_ids st' l = [rv] ->
    r_price rv = l_price ln /\ r_qty rv = l_qty ln.
Proof.
  apply update_keys_iff in Hu.
  destruct (write_ok_inv ids v st r st' Hw) as [st1 [Hh Hup]].
  rewrite Hu in Hup.
  pose proof (host_line_write_spec ids v st) as Hs. rewrite Hh in Hs.
  assert (Hnd1 : NoDup (res_ids st1))
    by (unfold res_ids; rewrite Hs; now apply apply_o2m_nodup).
  destruct (update_reservation_ok ids st1 st' tt Hnd1 Hup) as [_ [_ [_ H4]]].
  intros l ln rv Hl. now apply H4.
Qed.

(** ** The several-reservations error is raised after the host write *)

Lemma line_of_some (st : state) (i : nat) :
  line_of st i <> None <-> In i (map l_id (st_lines st)).
Proof.
  unfold line_of. induction (st_lines st) as [|l ls IH]; simpl.
  - split; [intro H; now apply H|intros []].
  - destruct (Nat.eqb_spec (l_id l) i) as [E|E].
    + split; [now left|discriminate].
    + rewrite IH. split; [now right|intros [H|H]; [contradiction|exact H]].
Qed.

Lemma set_line_field_id (k : string) (x : value) (l : line) :
  l_id (set_line_field k x l) = l_id l.
Proof.
  unfold set_line_field.
  destruct x; try reflexivity;
    repeat match goal with |- context [if ?c then _ else _] => destruct c end;
    reflexivity.
Qed.

Lemma assign_line_id (v : vals) (l : line) :
  l_id (fold_left (fun l '(k, x) => set_line_field k x l) v l) = l_id l.
Proof.
  revert l; induction v as [|[k x] v IH]; intro l; simpl; [reflexivity|].
  rewrite IH. apply set_line_field_id.
Qed.

Lemma write_lines_ids (ids : list nat) (v : vals) (st : state) :
  map l_id (st_lines (snd (write_lines ids v st))) = map l_id (st_lines st) /\
  forall u, fst (write_lines ids v st) = Ok u ->
            forall i, In i ids -> In i (map l_id (st_lines st)).
Proof.
  revert st; induction ids as [|i ids IH]; intro st; simpl.
  - split; [reflexivity|intros _ _ i []].
  - munfold. destruct (line_of st i) as [ln|] eqn:El; simpl.
    + set (st1 := set_lines _ st).
      assert (E1 : map l_id (st_lines st1) = map l_id (st_lines st)).
      { unfold st1. simpl. rewrite map_map. apply map_ext. intro l.
        destruct (Nat.eqb (l_id l) i); [apply assign_line_id|reflexivity]. }
      destruct (IH st1) as [H1 H2]. rewrite H1, E1.
      split; [reflexivity|]. intros u Hu j [<-|Hj].
      * apply line_of_some. now rewrite El.
      * rewrite <- E1. now apply (H2 u).
    + split; [reflexivity|discriminate].
Qed.

Lemma recompute_line_ids (i : nat) (st : state) :
  map l_id (st_lines (recompute_line i st)) = map l_id (st_lines st).
Proof.
  unfold recompute_line. simpl. rewrite map_map. apply map_ext. intro l.
  destruct (Nat.eqb (l_id l) i); reflexivity.
Qed.

Lemma recompute_lines_ids (ids : list nat) (st : state) :
  map l_id (st_lines (recompute_lines ids st)) = map l_id (st_lines st).
Proof.
  unfold recompute_lines. revert st; induction ids as [|i ids IH];
    intro st; simpl; [reflexivity|]. rewrite IH. apply recompute_line_ids.
Qed.

Lemma host_line_write_lines (ids : list nat) (v : vals) (st st1 : state)
    (b : bool) :
  host_line_write ids v st = (Ok b, st1) ->
  forall i, In i ids -> line_of st1 i <> None.
Proof.
  unfold host_line_write, bind, modify, ret.
  destruct (write_lines_ids ids v st) as [H1 H2].
  destruct (write_lines ids v st) as [[u|e] s] eqn:E; [|discriminate].
  intro H. inversion H; subst. intros i Hi. apply line_of_some.
  rewrite recompute_lines_ids. simpl. simpl in H1. rewrite H1.
  now apply (H2 u).
Qed.

(** C3 fails as stated: line 2 has two reservations, so writing price_unit
    on lines 1 and 2 raises, but the line prices have already been
    written and the single reservation of line 1 already updated. *)
Lemma write_several_counterexample :
  let v := [("price_unit", VNum 99)] in
  1 < List.length (reservation_ids cex3_state 2) /\
  fst (write [1; 2] v cex3_state) = Err (UserError msg_several) /\
  map l_price (st_lines (snd (write [1; 2] v cex3_state))) = [99; 99]%Z /\
  map r_price (st_res (snd (write [1; 2] v cex3_state))) = [99; 20; 20]%Z /\
  snd (write [1; 2] v cex3_state) <> cex3_state.
Proof.
  split; [vm_compute; lia|]. split; [vm_compute; reflexivity|].
  split; [vm_compute; reflexivity|]. split; [vm_compute; reflexivity|].
  vm_compute. discriminate.
Qed.

(** ** Writes outside the guarded fields *)

Lemma o2m_commands_nil (v : vals) :
  ~ In "reservation_ids" (keys v) -> o2m_commands v = [].
Proof.
  induction v as [|[k x] v IH]; simpl; [reflexivity|]. intro Hn.
  rewrite IH; [|tauto]. destruct x; try reflexivity.
  destruct (String.eqb_spec k "reservation_ids"); [|reflexivity].
  exfalso; apply Hn; now left.
Qed.

(** C10 fails as stated: a write carrying one2many commands on
    reservation_ids (none of the five guarded keys) changes the linked
    reservation through the host write. *)
Lemma write_frame_counterexample :
  let v := [("reservation_ids", VO2M [O2MUpdate 40 [("product_uom_qty", 7%Z)]])] in
  forallb (fun k => negb (str_mem k ["product_id"; "product_uom_id"; "type";
                                     "price_unit"; "product_uom_qty"]))
          (keys v) = true /\
  fst (write [1] v cex10_state) = Ok true /\
  map r_qty (st_res (snd (write [1] v cex10_state))) = [7%Z] /\
  st_res (snd (write [1] v cex10_state)) <> st_res cex10_state.
Proof.
  split; [reflexivity|]. split; [vm_compute; reflexivity|].
  split; [vm_compute; reflexivity|]. vm_compute. discriminate.
Qed.

(** C10 (amended): without any of the five guarded keys, write is exactly
    the host write: no UserError, and no reservation is written by this
    module; reservations stay unchanged unless vals itself carries
    reservation_ids commands. *)
Theorem write_frame (ids : list nat) (v : vals) (st : state)
    (Hn : forall k, In k (keys v) ->
          ~ In k ["product_id"; "product_uom_id"; "type";
                  "price_unit"; "product_uom_qty"]) :
  write ids v st = host_line_write ids v st /\
  (forall m, fst (write ids v st) <> Err (UserError m)) /\
  (~ In "reservation_ids" (keys v) -> st_res (snd (write ids v st)) = st_res st).
Proof.
  assert (Hb : nonempty (_test_block_on_reserve v) = false).
  { destruct (nonempty (_test_block_on_reserve v)) eqn:E; [|reflexivity].
    apply block_keys_iff in E. destruct E as [k [Hk Hb]].
    exfalso. apply (Hn k Hk). simpl in Hb |- *. tauto. }
  assert (Hu : nonempty (_test_update_on_reserve v) = false).
  { destruct (nonempty (_test_update_on_reserve v)) eqn:E; [|reflexivity].
    apply update_keys_iff in E. destruct E as [k [Hk Hb']].
    exfalso. apply (Hn k Hk). simpl in Hb' |- *. tauto. }
  assert (Hw : write ids v st = host_line_write ids v st).
  { unfold write, bind at 1, get. simpl. rewrite Hb. simpl.
    rewrite Hu. unfold bind.
    destruct (host_line_write ids v st) as [[x|e] s]; reflexivity. }
  split; [exact Hw|]. rewrite Hw.
  pose proof (host_line_write_spec ids v st) as Hs.
  destruct (host_line_write ids v st) as [[x|e] s]; simpl.
  - split; [discriminate|]. intro Hr. rewrite Hs, (o2m_commands_nil v Hr).
    reflexivity.
  - destruct Hs as [Hs [i ->]]. split; [discriminate|]. now intros _.
Qed.

(** ** Releasing before confirmation and cancellation *)

Lemma release_all_spec (oids : list nat) (st : state) :
  let rids := map r_id (mapped_reservation_ids st (order_line_ids st oids)) in
  exists st1,
    release_all_stock_reservation oids st = (Ok true, st1) /\
    st_log st1 = (st_log st ++ [EvRelease rids])%list /\
    st_res st1 = released_res rids (st_res st) /\
    st_lines st1 = st_lines st.
Proof.
  intro rids. eexists. split.
  - unfold release_all_stock_reservation, release_stock_reservation, release.
    unfold bind, get, modify, ret. simpl. reflexivity.
  - simpl. auto.
Qed.

Lemma released_res_linked (st : state) (oids : list nat) (rv : reservation) :
  In rv (released_res
           (map r_id (mapped_reservation_ids st (order_line_ids st oids)))
           (st_res st)) ->
  (exists ln, In ln (st_lines st) /\ In (l_order ln) oids /\
              r_line rv = Some (l_id ln)) ->
  r_state rv = RReleased.
Proof.
  unfold released_res. intros Hin [ln [Hln [Ho Hr]]].
  apply in_map_iff in Hin. destruct Hin as [rv0 [E Hrv0]]. subst rv.
  revert Hr.
  destruct (mem (r_id rv0)
              (map r_id (mapped_reservation_ids st (order_line_ids st oids))))
    eqn:Em; [intros _; reflexivity|intro Hr; exfalso].
  rewrite (proj2 (mem_In _ _)) in Em; [discriminate|].
  apply in_map. apply mapped_reservation_ids_In. exists (l_id ln). split.
  - unfold order_line_ids. apply in_map. apply filter_In.
    split; [exact Hln|now apply mem_In].
  - apply reservation_ids_In. auto.
Qed.

(** C7: confirming or cancelling orders first releases every reservation
    linked to their lines, then calls the host's confirm or cancel. *)
Theorem confirm_cancel_release_first (oids : list nat) (st : state) :
  let rids := map r_id (mapped_reservation_ids st (order_line_ids st oids)) in
  let linked rv := exists ln, In ln (st_lines st) /\ In (l_order ln) oids /\
                              r_line rv = Some (l_id ln) in
  (fst (_action_confirm oids st) = Ok true /\
   st_log (snd (_action_confirm oids st)) =
     (st_log st ++ [EvRelease rids; EvSuperConfirm oids])%list /\
   forall rv, In rv (st_res (snd (_action_confirm oids st))) -> linked rv ->
              r_state rv = RReleased) /\
  (fst (action_cancel oids st) = Ok true /\
   st_log (snd (action_cancel oids st)) =
     (st_log st ++ [EvRelease rids; EvSuperCancel oids])%list /\
   forall rv, In rv (st_res (snd (action_cancel oids st))) -> linked rv ->
              r_state rv = RReleased).
Proof.
  intros rids linked.
  destruct (release_all_spec oids st) as [st1 [H1 [H2 [H3 _]]]].
  fold rids in H2, H3.
  assert (Hc : _action_confirm oids st =
    (Ok true, set_orders (map (fun o => if mem (o_id o) oids
                                        then with_order_state "sale" o else o))
                         (log (EvSuperConfirm oids) st1))).
  { unfold _action_confirm, bind at 1. rewrite H1. reflexivity. }
  assert (Hx : action_cancel oids st =
    (Ok true, set_orders (map (fun o => if mem (o_id o) oids
                                        then with_order_state "cancel" o else o))
                         (log (EvSuperCancel oids) st1))).
  { unfold action_cancel, bind at 1. rewrite H1. reflexivity. }
  rewrite Hc, Hx. simpl. rewrite H2, <- !app_assoc, H3. simpl.
  split; (split; [reflexivity|split; [reflexivity|]]);
    intros rv Hin Hl; exact (released_res_linked st oids rv Hin Hl).
Qed.

(** ** Acquiring reservations *)

Lemma find_map_comm {A} (p : A -> bool) (h : A -> A) (l : list A) :
  (forall x, p (h x) = p x) -> find p (map h l) = option_map h (find p l).
Proof.
  intro Hp. induction l as [|x l IH]; simpl; [reflexivity|].
  rewrite Hp. destruct (p x); [reflexivity|exact IH].
Qed.

Lemma find_app_none {A} (p : A -> bool) (l1 l2 : list A) :
  find p l1 <> None -> find p (l1 ++ l2) = find p l1.
Proof.
  induction l1 as [|x l IH]; simpl; [intro H; now contradiction H|].
  destruct (p x); [reflexivity|exact IH].
Qed.

Lemma line_of_id (st : state) (i : nat) (ln : line) :
  line_of st i = Some ln -> l_id ln = i.
Proof.
  unfold line_of. intro H. apply find_some in H. destruct H as [_ H].
  now apply Nat.eqb_eq.
Qed.

Lemma order_of_id (st : state) (i : nat) (o : order) :
  order_of st i = Some o -> o_id o = i.
Proof.
  unfold order_of. intro H. apply find_some in H. destruct H as [_ H].
  now apply Nat.eqb_eq.
Qed.

Lemma line_of_recompute (i j : nat) (st : state) :
  line_of (recompute_line i st) j =
  option_map (fun l => if Nat.eqb (l_id l) i
                       then with_line_reservable
                              (_compute_is_stock_reservation st l) l
                       else l) (line_of st j).
Proof.
  unfold line_of, recompute_line. simpl. apply find_map_comm.
  intro x. destruct (Nat.eqb (l_id x) i); reflexivity.
Qed.

Lemma ext_refl (s : state) : ext s s.
Proof.
  split; [reflexivity|split; [|split; [auto|split; [lia|split]]]].
  - intros j o H. exists o. auto.
  - exists []. now rewrite app_nil_r.
  - exists []. now rewrite app_nil_r.
Qed.

Lemma ext_trans (s1 s2 s3 : state) : ext s1 s2 -> ext s2 s3 -> ext s1 s3.
Proof.
  intros [A1 [B1 [C1 [D1 [[c1 E1] [e1 F1]]]]]]
         [A2 [B2 [C2 [D2 [[c2 E2] [e2 F2]]]]]].
  split; [intro j; now rewrite A2, A1|split; [|split; [auto|split; [lia|split]]]].
  - intros j o H. destruct (B1 j o H) as [o1 [H1 G1]].
    destruct (B2 j o1 H1) as [o2 [H2 G2]]. exists o2. split; [exact H2|].
    intro Hn. rewrite G2; [now apply G1|]. now rewrite G1.
  - exists (c1 ++ c2)%list. now rewrite E2, E1, app_assoc.
  - exists (e1 ++ e2)%list. now rewrite F2, F1, app_assoc.
Qed.

Lemma order_of_set_group (s : state) (i g : nat) (j : nat) :
  order_of (set_orders (map (fun o' => if Nat.eqb (o_id o') i
                                       then with_order_group (Some g) o'
                                       else o')) s) j =
  option_map (fun o' => if Nat.eqb (o_id o') i
                        then with_order_group (Some g) o' else o')
             (order_of s j).
Proof.
  unfold order_of, set_orders. simpl. apply find_map_comm.
  intro x. destruct (Nat.eqb (o_id x) i); reflexivity.
Qed.

Lemma bind_ok {A B} (m : M A) (k : A -> M B) (s : state) (a : A)
    (s1 : state) :
  m s = (Ok a, s1) -> bind m k s = k a s1.
Proof. unfold bind. now intros ->. Qed.

Lemma browse_order_ok (s : state) (i : nat) (o : order) :
  order_of s i = Some o -> browse_order i s = (Ok o, s).
Proof. unfold browse_order, bind, get. simpl. now intros ->. Qed.

Lemma browse_line_ok (s : state) (i : nat) (ln : line) :
  line_of s i = Some ln -> browse_line i s = (Ok ln, s).
Proof. unfold browse_line, bind, get. simpl. now intros ->. Qed.

Lemma prepare_spec (s : state) (ln : line) (o : order)
    (date_validity note : option string) :
  order_of s (l_order ln) = Some o ->
  exists sa o2,
    _prepare_stock_reservation ln date_validity note s =
      (Ok (prepared ln o2 date_validity note), sa) /\
    order_of sa (l_order ln) = Some o2 /\ o_group o2 <> None /\
    (o_group o <> None -> o_group o2 = o_group o) /\
    (o_group o = None -> exists gr, In gr (st_groups sa) /\
        o_group o2 = Some (g_id gr) /\ g_sale_id gr = l_order ln) /\
    ext s sa /\ st_res sa = st_res s /\ st_lines sa = st_lines s /\
    (forall j, j <> l_order ln -> order_of sa j = order_of s j).
Proof.
  intro Ho. pose proof (order_of_id _ _ _ Ho) as Hid.
  unfold _prepare_stock_reservation.
  rewrite (bind_ok _ _ _ _ _ (browse_order_ok _ _ _ Ho)).
  destruct (o_group o) as [g|] eqn:Eg.
  - rewrite (bind_ok _ _ s tt s eq_refl).
    rewrite (bind_ok _ _ _ _ _ (browse_order_ok _ _ _ Ho)).
    exists s, o. split; [reflexivity|]. split; [exact Ho|]. rewrite Eg.
    split; [discriminate|split; [auto|split; [discriminate|]]].
    split; [apply ext_refl|auto].
  - set (h := fun o' => if Nat.eqb (o_id o') (o_id o)
                        then with_order_group (Some (st_next s)) o' else o').
    set (sg := {| st_products := st_products s;
        st_warehouses := st_warehouses s;
        st_rules := st_rules s; st_orders := st_orders s;
        st_lines := st_lines s;
        st_groups := st_groups s ++
          [{| g_id := st_next s; g_name := o_name o;
              g_move_type := o_picking_policy o;
              g_sale_id := o_id o; g_partner := o_partner_shipping o |}];
        st_res := st_res s; st_next := S (st_next s);
        st_log := st_log s ++ [EvCreateGroup (st_next s)] |}).
    set (sa := set_orders (map h) sg).
    assert (Hsg : forall j, order_of sg j = order_of s j) by reflexivity.
    assert (Hsa : forall j, order_of sa j = option_map h (order_of s j)).
    { intro j. unfold sa, h. rewrite order_of_set_group. now rewrite Hsg. }
    assert (Ho2 : order_of sa (l_order ln) =
                  Some (with_order_group (Some (st_next s)) o)).
    { rewrite Hsa, Ho. simpl. unfold h. now rewrite Nat.eqb_refl. }
    assert (Hrun : (match @None nat with
                    | Some _ => ret tt
                    | None =>
                        gid <- create_group
                          {| g_id := 0; g_name := o_name o;
                             g_move_type := o_picking_policy o;
                             g_sale_id := o_id o;
                             g_partner := o_partner_shipping o |};;
                        modify (set_orders (map (fun o' =>
                          if Nat.eqb (o_id o') (o_id o)
                          then with_order_group (Some gid) o' else o')))
                    end) s = (Ok tt, sa)) by reflexivity.
    rewrite (bind_ok _ _ _ _ _ Hrun).
    rewrite (bind_ok _ _ _ _ _ (browse_order_ok _ _ _ Ho2)).
    eexists; eexists. split; [reflexivity|].
    split; [exact Ho2|]. simpl.
    split; [discriminate|split; [intro H; now contradiction H|split]].
    + intros _. eexists. split; [simpl; apply in_or_app; right; now left|].
      simpl. now rewrite Hid.
    + split; [|split; [reflexivity|split; [reflexivity|]]].
      * split; [reflexivity|split; [|split; [|split; [simpl; lia|]]]].
        -- intros j o' Hj. rewrite Hsa, Hj. simpl.
           eexists. split; [reflexivity|]. intro Hn. unfold h.
           destruct (Nat.eqb_spec (o_id o') (o_id o)) as [E|E];
             [|reflexivity].
           exfalso. apply order_of_id in Hj as Hj'.
           rewrite E, Hid in Hj'. subst j. rewrite Ho in Hj.
           injection Hj as <-. now apply Hn.
        -- intros gr H. simpl. apply in_or_app. now left.
        -- split; [exists []; now rewrite app_nil_r|].
           eexists. reflexivity.
      * intros j Hj. rewrite Hsa.
        destruct (order_of s j) as [o'|] eqn:Ej; [|reflexivity]. simpl.
        apply order_of_id in Ej. unfold h.
        destruct (Nat.eqb_spec (o_id o') (o_id o)); [|reflexivity].
        exfalso. apply Hj. congruence.
Qed.

Lemma compute_reserved_false (st : state) (ln : line) :
  reservation_ids st (l_id ln) <> [] ->
  _compute_is_stock_reservation st ln = false.
Proof.
  intro H. unfold _compute_is_stock_reservation.
  destruct (reservation_ids st (l_id ln)); [now contradiction H|].
  now rewrite andb_false_r.
Qed.

Lemma create_spec (s : state) (rv : reservation) (l : nat) :
  r_line rv = Some l ->
  exists s1,
    create_reservation rv s = (Ok (st_next s), s1) /\
    st_res s1 = (st_res s ++ [with_res_id (st_next s) rv])%list /\
    st_next s1 = S (st_next s) /\
    st_orders s1 = st_orders s /\ st_groups s1 = st_groups s /\
    (exists evs, st_log s1 = (st_log s ++ evs)%list) /\
    (forall j, line_of s1 j =
       option_map (fun x => if Nat.eqb (l_id x) l
                            then with_line_reservable false x else x)
                  (line_of s j)).
Proof.
  intro Hl. unfold create_reservation. rewrite Hl.
  eexists. split; [reflexivity|].
  simpl. split; [reflexivity|split; [reflexivity|split; [reflexivity|
    split; [reflexivity|split; [eexists; reflexivity|]]]]].
  intro j. rewrite line_of_recompute.
  assert (Hsb : forall st', st_lines st' = st_lines s ->
                            line_of st' j = line_of s j)
    by (intros st' H; unfold line_of; now rewrite H).
  erewrite Hsb by reflexivity.
  destruct (line_of s j) as [x|]; [|reflexivity]. simpl.
  destruct (Nat.eqb_spec (l_id x) l) as [E|E]; [|reflexivity].
  f_equal. f_equal. apply compute_reserved_false.
  rewrite E. intro Hn.
  assert (Hin : In (with_res_id (st_next s) rv)
                   (reservation_ids
                      {| st_products := st_products s;
                         st_warehouses := st_warehouses s;
                         st_rules := st_rules s; st_orders := st_orders s;
                         st_lines := st_lines s; st_groups := st_groups s;
                         st_res := st_res s ++ [with_res_id (st_next s) rv];
                         st_next := S (st_next s);
                         st_log := st_log s ++ [EvCreateReservation (st_next s)]
                      |} l)).
  { apply reservation_ids_In. simpl. split; [apply in_or_app; right; now left|].
    exact Hl. }
  rewrite Hn in Hin. exact Hin.
Qed.

Lemma created_ok_ext (s0 s s' : state) (ids : list nat) (r : reservation) :
  created_ok s0 s ids r -> ext s s' -> created_ok s0 s' ids r.
Proof.
  intros [ln [H1 [H2 [H3 [H4 [H5 [H6 [H7 [H8 [o [Ho [Hg Hn]]]]]]]]]]]]
         [_ [Bo _]].
  exists ln. do 8 (split; [assumption|]).
  destruct (Bo _ _ Ho) as [o' [Ho' Hg']]. exists o'.
  split; [exact Ho'|]. rewrite Hg'; [split; assumption|congruence].
Qed.

Lemma groups_made_same_orders (s s' : state) :
  st_orders s' = st_orders s -> groups_made s s'.
Proof.
  intros E j o0 o g H0 Hn H Hg. unfold order_of in H. rewrite E in H.
  fold (order_of s j) in H. rewrite H0 in H. injection H as <-. congruence.
Qed.

Lemma groups_made_trans (s0 s1 s2 : state) :
  groups_made s0 s1 -> ext s0 s1 -> groups_made s1 s2 -> ext s1 s2 ->
  groups_made s0 s2.
Proof.
  intros G1 [_ [B1 _]] G2 [_ [B2 [C2 _]]] j o0 o g H0 Hn H Hg.
  destruct (B1 _ _ H0) as [o1 [H1 _]].
  destruct (o_group o1) as [g1|] eqn:E1.
  - destruct (G1 j o0 o1 g1 H0 Hn H1 E1) as [gr [Hgr [Hid Hs]]].
    destruct (B2 _ _ H1) as [o' [H' Hg']]. rewrite H in H'.
    injection H' as <-. rewrite Hg', E1 in Hg by congruence.
    injection Hg as <-. exists gr. auto.
  - exact (G2 j o1 o g H1 E1 H Hg).
Qed.

Lemma line_of_lines_eq (s s' : state) (j : nat) :
  st_lines s' = st_lines s -> line_of s' j = line_of s j.
Proof. intro H. unfold line_of. now rewrite H. Qed.

Lemma order_of_orders_eq (s s' : state) (j : nat) :
  st_orders s' = st_orders s -> order_of s' j = order_of s j.
Proof. intro H. unfold order_of. now rewrite H. Qed.

Lemma rs_union_fresh (acc : list nat) (x : nat) :
  ~ In x acc -> rs_union acc [x] = (acc ++ [x])%list.
Proof.
  intro H. unfold rs_union. simpl.
  destruct (mem x acc) eqn:E; [|reflexivity].
  apply mem_In in E. contradiction.
Qed.

(** The state after creating a reservation for line [l]: the line is no
    longer reservable, nothing else of the lines changes. *)
Lemma ext_create (s s1 : state) (x : reservation) (l : nat) :
  st_res s1 = (st_res s ++ [x])%list -> st_next s1 = S (st_next s) ->
  st_orders s1 = st_orders s -> st_groups s1 = st_groups s ->
  (exists evs, st_log s1 = (st_log s ++ evs)%list) ->
  (forall j, line_of s1 j =
     option_map (fun x => if Nat.eqb (l_id x) l
                          then with_line_reservable false x else x)
                (line_of s j)) ->
  ext s s1.
Proof.
  intros Hr Hn Ho Hg Hl Hj. split; [|split; [|split; [|split; [|split]]]].
  - intro j. rewrite Hj. destruct (line_of s j) as [y|]; [|reflexivity].
    simpl. destruct (Nat.eqb (l_id y) l); reflexivity.
  - intros j o H. exists o. rewrite (order_of_orders_eq s s1 j Ho). auto.
  - rewrite Hg. auto.
  - lia.
  - eexists. exact Hr.
  - exact Hl.
Qed.

Lemma mem_cons (x i : nat) (t : list nat) :
  mem x (i :: t) = Nat.eqb x i || mem x t.
Proof. reflexivity. Qed.

Lemma count_line_cons (l : nat) (r : reservation) (rs : list reservation) :
  count_line l (r :: rs) =
  (if opt_eqb (r_line r) (Some l) then 1 else 0) + count_line l rs.
Proof. unfold count_line. simpl. destruct (opt_eqb _ _); reflexivity. Qed.

Lemma acquire_loop_spec (dv note : option string) (ids : list nat) :
  forall (s : state) (acc : list nat),
  (forall i, In i ids -> exists ln o,
     line_of s i = Some ln /\ order_of s (l_order ln) = Some o) ->
  (forall r, In r (st_res s) -> r_id r < st_next s) ->
  (forall x, In x acc -> x < st_next s) ->
  exists s' created,
    acquire_loop ids dv note acc s =
      (Ok (acc ++ map r_id created)%list, s') /\
    st_res s' = (st_res s ++ created)%list /\
    ext s s' /\ groups_made s s' /\
    (forall r, In r (st_res s') -> r_id r < st_next s') /\
    (forall r, In r created -> st_next s <= r_id r /\ r_state r = RDraft) /\
    NoDup (map r_id created) /\
    (forall l, count_line l created =
               if mem l ids && reservable_at s l then 1 else 0) /\
    (forall r, In r created -> created_ok s s' ids r).
Proof.
  induction ids as [|i t IH]; intros s acc Hex Hfr Hacc.
  - exists s, []. simpl. rewrite !app_nil_r.
    split; [reflexivity|split; [reflexivity|split; [apply ext_refl|]]].
    split; [apply groups_made_same_orders; reflexivity|].
    split; [exact Hfr|split; [intros r []|split; [constructor|]]].
    split; [intro l; reflexivity|intros r []].
  - destruct (Hex i (or_introl eq_refl)) as [ln [o [Hl Ho]]].
    pose proof (line_of_id _ _ _ Hl) as Hid.
    assert (Hex' : forall i', In i' t -> exists ln' o',
               line_of s i' = Some ln' /\ order_of s (l_order ln') = Some o')
      by (intros i' Hi'; apply Hex; now right).
    simpl acquire_loop. rewrite (bind_ok _ _ _ _ _ (browse_line_ok _ _ _ Hl)).
    cbv beta. destruct (l_reservable ln) eqn:Er; cbn [negb].
    + destruct (prepare_spec s ln o dv note Ho)
        as [sa [o2 [Hp [Ho2 [Hgn [Hgk [Hgc [Hext1 [Hres1 [Hlin1 Hoth]]]]]]]]]].
      rewrite (bind_ok _ _ _ _ _ Hp).
      destruct (create_spec sa (prepared ln o2 dv note) (l_id ln) eq_refl)
        as [s1 [Hc [Hr1 [Hn1 [Ho1 [Hg1 [Hlg1 Hl1]]]]]]].
      rewrite (bind_ok _ _ _ _ _ Hc).
      pose proof (ext_create _ _ _ _ Hr1 Hn1 Ho1 Hg1 Hlg1 Hl1) as Hext2.
      pose proof Hext1 as [_ [_ [_ [Hnx _]]]].
      rewrite rs_union_fresh by (intro H; apply Hacc in H; lia).
      set (nr := with_res_id (st_next sa) (prepared ln o2 dv note)).
      assert (Hls1 : forall j, line_of s1 j =
                 option_map (fun x => if Nat.eqb (l_id x) (l_id ln)
                                      then with_line_reservable false x
                                      else x) (line_of s j)).
      { intro j. rewrite Hl1. now rewrite (line_of_lines_eq s sa j Hlin1). }
      assert (Hex1 : forall i', In i' t -> exists ln' o',
                 line_of s1 i' = Some ln' /\
                 order_of s1 (l_order ln') = Some o').
      { intros i' Hi'. destruct (Hex' i' Hi') as [ln' [o' [Hl' Ho']]].
        pose proof Hext1 as [_ [B1 _]].
        destruct (B1 _ _ Ho') as [o'' [Ho'' _]].
        rewrite Hls1, Hl'. simpl.
        eexists; exists o''. split; [reflexivity|].
        rewrite (order_of_orders_eq sa s1 _ Ho1).
        destruct (Nat.eqb (l_id ln') (l_id ln)); exact Ho''. }
      assert (Hfr1 : forall r, In r (st_res s1) -> r_id r < st_next s1).
      { intros r Hr. rewrite Hr1, Hres1 in Hr. rewrite Hn1.
        apply in_app_or in Hr. destruct Hr as [Hr|[<-|[]]].
        - apply Hfr in Hr. lia.
        - simpl. lia. }
      assert (Hacc1 : forall x, In x (acc ++ [st_next sa])%list ->
                                x < st_next s1).
      { intros x Hx. rewrite Hn1. apply in_app_or in Hx.
        destruct Hx as [Hx|[<-|[]]]; [apply Hacc in Hx; lia|lia]. }
      destruct (IH s1 (acc ++ [st_next sa])%list Hex1 Hfr1 Hacc1)
        as [s' [ct [Hrun [Hres' [Hext3 [Hgm3 [Hfr' [Hct [Hnd [Hcnt Hok]]]]]]]]]].
      assert (Hgm1 : groups_made s sa).
      { intros j o0 o' g H0 Hn H Hg.
        destruct (Nat.eq_dec j (l_order ln)) as [->|Hne].
        - rewrite Ho in H0. injection H0 as <-. rewrite Ho2 in H.
          injection H as <-. destruct (Hgc Hn) as [gr [Hgr [Hgi Hs]]].
          exists gr. split; [exact Hgr|split; [congruence|exact Hs]].
        - rewrite (Hoth j Hne), H0 in H. injection H as <-. congruence. }
      pose proof (ext_trans _ _ _ Hext2 Hext3) as Hext23.
      exists s', (nr :: ct).
      split; [rewrite Hrun; simpl; now rewrite <- app_assoc|].
      split; [rewrite Hres', Hr1, Hres1, <- app_assoc; reflexivity|].
      split; [exact (ext_trans _ _ _ Hext1 Hext23)|].
      split; [exact (groups_made_trans _ _ _ Hgm1 Hext1
                (groups_made_trans _ _ _ (groups_made_same_orders _ _ Ho1)
                   Hext2 Hgm3 Hext3) Hext23)|].
      split; [exact Hfr'|].
      split.
      { intros r [<-|Hr]; [simpl; split; [lia|reflexivity]|].
        apply Hct in Hr. split; [lia|tauto]. }
      split.
      { simpl. constructor; [|exact Hnd]. intro Hin.
        apply in_map_iff in Hin. destruct Hin as [r [Hr Hin]].
        apply Hct in Hin. lia. }
      split.
      { intro l. rewrite count_line_cons, Hcnt, mem_cons. unfold reservable_at.
        rewrite Hls1. simpl r_line. rewrite Hid. simpl opt_eqb.
        destruct (Nat.eqb_spec l i) as [->|Hne].
        - rewrite Hl, Nat.eqb_refl. simpl. rewrite Hid, Nat.eqb_refl, Er.
          now rewrite andb_false_r.
        - rewrite (proj2 (Nat.eqb_neq i l)) by congruence.
          destruct (line_of s l) as [y|] eqn:Ey; simpl; [|reflexivity].
          rewrite (line_of_id _ _ _ Ey).
          rewrite (proj2 (Nat.eqb_neq l i)) by exact Hne. reflexivity. }
      intros r [<-|Hr].
      * exists ln. split; [left; now rewrite Hid|].
        split; [now rewrite Hid|split; [exact Er|]].
        do 5 (split; [reflexivity|]).
        pose proof Hext23 as [_ [B _]].
        destruct (B _ _ Ho2) as [o' [Ho' Hg']]. exists o'.
        split; [exact Ho'|]. simpl. rewrite Hg' by exact Hgn.
        split; [reflexivity|exact Hgn].
      * destruct (Hok r Hr) as [ln1 [Hin1 [Hl1' [Hr1' Hrest]]]].
        exists ln1. split; [now right|]. split; [|split; [exact Hr1'|exact Hrest]].
        rewrite Hls1 in Hl1'.
        destruct (line_of s (l_id ln1)) as [y|] eqn:Ey; simpl in Hl1';
          [|discriminate].
        injection Hl1' as Hy.
        destruct (Nat.eqb (l_id y) (l_id ln)).
        -- rewrite <- Hy in Hr1'. discriminate.
        -- now rewrite <- Hy.
    + destruct (IH s acc Hex' Hfr Hacc)
        as [s' [ct [Hrun [Hres' [Hext3 [Hgm3 [Hfr' [Hct [Hnd [Hcnt Hok]]]]]]]]]].
      exists s', ct. do 7 (split; [assumption|]).
      split.
      { intro l. rewrite Hcnt, mem_cons.
        destruct (Nat.eqb_spec l i) as [->|Hne].
        - unfold reservable_at. rewrite Hl, Er. now rewrite !andb_false_r.
        - reflexivity. }
      intros r Hr. destruct (Hok r Hr) as [ln1 [Hin1 Hrest]].
      exists ln1. split; [now right|exact Hrest].
Qed.

Lemma released_res_lines (s : state) (ids : list nat) (rv : reservation) :
  In rv (released_res (map r_id (mapped_reservation_ids s ids)) (st_res s)) ->
  (exists l, In l ids /\ r_line rv = Some l) ->
  r_state rv = RReleased.
Proof.
  unfold released_res. intros Hin [l [Hl Hr]].
  apply in_map_iff in Hin. destruct Hin as [rv0 [E Hrv0]]. subst rv.
  revert Hr.
  destruct (mem (r_id rv0) (map r_id (mapped_reservation_ids s ids)))
    eqn:Em; [intros _; reflexivity|intro Hr; exfalso].
  rewrite (proj2 (mem_In _ _)) in Em; [discriminate|].
  apply in_map. apply mapped_reservation_ids_In. exists l.
  split; [exact Hl|]. apply reservation_ids_In. auto.
Qed.

(** [reserve] on the fresh reservations leaves the older ones alone. *)
Lemma reserved_res_fresh (old created : list reservation) (n : nat) :
  (forall r, In r old -> r_id r < n) ->
  (forall r, In r created -> n <= r_id r) ->
  reserved_res (map r_id created) (old ++ created) =
  (old ++ map (with_res_state RReserved) created)%list.
Proof.
  intros Ho Hc. unfold reserved_res. rewrite map_app. f_equal.
  - rewrite <- (map_id old) at 2. apply map_ext_in. intros r Hr.
    destruct (mem (r_id r) (map r_id created)) eqn:E; [|reflexivity].
    apply mem_In, in_map_iff in E. destruct E as [r' [E Hr']].
    apply Hc in Hr'. apply Ho in Hr. lia.
  - apply map_ext_in. intros r Hr.
    rewrite (proj2 (mem_In _ _)); [reflexivity|now apply in_map].
Qed.

Lemma acquire_run (ids : list nat) (dv note : option string) (st s' : state)
    (ct : list reservation) :
  acquire_loop ids dv note [] st = (Ok (map r_id ct), s') ->
  acquire_stock_reservation ids dv note st =
    (Ok true, set_res (reserved_res (map r_id ct))
                      (log (EvReserve (map r_id ct)) s')).
Proof.
  intro H. unfold acquire_stock_reservation.
  rewrite (bind_ok _ _ _ _ _ H). reflexivity.
Qed.

(** C6: [acquire_stock_reservation] creates one reservation for each
    reservable line of the recordset and none for the others, copying the
    line's product, unit, quantity and price and putting it under the
    order's procurement group (created first when missing); it reserves
    exactly the created reservations and returns True.
    [release_stock_reservation] releases every reservation linked to the
    lines and returns True. *)
Theorem acquire_release_stock_reservation (ids : list nat)
    (dv note : option string) (st : state)
    (Hex : forall i, In i ids -> exists ln o,
       line_of st i = Some ln /\ order_of st (l_order ln) = Some o)
    (Hfr : forall r, In r (st_res st) -> r_id r < st_next st) :
  (exists st' created,
     acquire_stock_reservation ids dv note st = (Ok true, st') /\
     st_res st' = (st_res st ++ map (with_res_state RReserved) created)%list /\
     (exists evs, st_log st' =
        (st_log st ++ evs ++ [EvReserve (map r_id created)])%list) /\
     (forall l ln, In l ids -> line_of st l = Some ln ->
        count_line l created = if l_reservable ln then 1 else 0) /\
     (forall l, ~ In l ids -> count_line l created = 0) /\
     (forall r, In r created -> created_ok st st' ids r) /\
     groups_made st st') /\
  (forall s, exists s',
     release_stock_reservation ids s = (Ok true, s') /\
     st_log s' =
       (st_log s ++ [EvRelease (map r_id (mapped_reservation_ids s ids))])%list /\
     (forall rv, In rv (st_res s') ->
        (exists l, In l ids /\ r_line rv = Some l) ->
        r_state rv = RReleased)).
Proof.
  split.
  - destruct (acquire_loop_spec dv note ids st [] Hex Hfr (fun x H => match H with end))
      as [s' [ct [Hrun [Hres [Hext [Hgm [_ [Hct [_ [Hcnt Hok]]]]]]]]]].
    exists (set_res (reserved_res (map r_id ct))
                    (log (EvReserve (map r_id ct)) s')), ct.
    split; [exact (acquire_run _ _ _ _ _ _ Hrun)|].
    split.
    { simpl. rewrite Hres.
      apply (reserved_res_fresh _ _ (st_next st) Hfr).
      intros r Hr. apply Hct in Hr. tauto. }
    split.
    { destruct Hext as [_ [_ [_ [_ [_ [evs Hl]]]]]]. exists evs.
      simpl. rewrite Hl. now rewrite <- app_assoc. }
    split.
    { intros l ln Hl Hln. rewrite Hcnt, (proj2 (mem_In _ _) Hl).
      unfold reservable_at. now rewrite Hln. }
    split.
    { intros l Hl. rewrite Hcnt.
      destruct (mem l ids) eqn:E; [apply mem_In in E; contradiction|].
      reflexivity. }
    split; [exact Hok|exact Hgm].
  - intro s.
    exists (set_res (released_res (map r_id (mapped_reservation_ids s ids)))
              (log (EvRelease (map r_id (mapped_reservation_ids s ids))) s)).
    split; [reflexivity|split; [reflexivity|]].
    intros rv Hin Hl. exact (released_res_lines s ids rv Hin Hl).
Qed.

Lemma recompute_lines_cons (i : nat) (t : list nat) (s : state) :
  recompute_lines (i :: t) s = recompute_lines t (recompute_line i s).
Proof. reflexivity. Qed.

Lemma recompute_lines_frame (ids : list nat) : forall s,
  st_orders (recompute_lines ids s) = st_orders s /\
  st_next (recompute_lines ids s) = st_next s /\
  (forall j, option_map line_data (line_of (recompute_lines ids s) j) =
             option_map line_data (line_of s j)).
Proof.
  induction ids as [|i t IH]; intro s; [auto|].
  rewrite recompute_lines_cons. destruct (IH (recompute_line i s))
    as [Ho [Hn Hl]].
  split; [exact Ho|split; [exact Hn|]]. intro j. rewrite Hl.
  rewrite line_of_recompute. destruct (line_of s j) as [x|]; [|reflexivity].
  simpl. destruct (Nat.eqb (l_id x) i); reflexivity.
Qed.

Lemma recompute_line_other (i l : nat) (s : state) :
  i <> l -> reservable_at (recompute_line i s) l = reservable_at s l.
Proof.
  intro Hne. unfold reservable_at. rewrite line_of_recompute.
  destruct (line_of s l) as [x|] eqn:E; [|reflexivity]. simpl.
  rewrite (line_of_id _ _ _ E), (proj2 (Nat.eqb_neq l i)) by congruence.
  reflexivity.
Qed.

Lemma recompute_lines_other (ids : list nat) : forall s l,
  ~ In l ids -> reservable_at (recompute_lines ids s) l = reservable_at s l.
Proof.
  induction ids as [|i t IH]; intros s l Hn; [reflexivity|].
  rewrite recompute_lines_cons, IH by (intro H; apply Hn; now right).
  apply recompute_line_other. intro E. apply Hn. now left.
Qed.

(** The ORM recompute of a line that has a reservation makes it not
    reservable. *)
Lemma recompute_lines_reserved (ids : list nat) : forall s l,
  In l ids -> reservation_ids s l <> [] ->
  reservable_at (recompute_lines ids s) l = false.
Proof.
  induction ids as [|i t IH]; intros s l Hin Hr; [destruct Hin|].
  rewrite recompute_lines_cons. destruct (in_dec Nat.eq_dec l t) as [Ht|Ht].
  - apply IH; [exact Ht|exact Hr].
  - destruct Hin as [->|Hin]; [|contradiction].
    rewrite recompute_lines_other by exact Ht.
    unfold reservable_at. rewrite line_of_recompute.
    destruct (line_of s l) as [x|] eqn:E; [|reflexivity]. simpl.
    rewrite (line_of_id _ _ _ E), Nat.eqb_refl. simpl.
    apply compute_reserved_false. now rewrite (line_of_id _ _ _ E).
Qed.

Lemma count_line_pos (l : nat) (rs : list reservation) :
  0 < count_line l rs -> exists r, In r rs /\ r_line r = Some l.
Proof.
  unfold count_line. destruct (List.filter _ rs) as [|r t] eqn:E;
    simpl; [lia|intros _].
  assert (H : In r (List.filter (fun r => opt_eqb (r_line r) (Some l)) rs))
    by (rewrite E; now left).
  apply filter_In in H. destruct H as [H1 H2]. exists r.
  split; [exact H1|now apply opt_eqb_eq].
Qed.

Lemma line_data_order (a b : line) :
  line_data a = line_data b -> l_order a = l_order b.
Proof. unfold line_data. intro H. now inversion H. Qed.

Lemma lines_transport (ids : list nat) (s s2 : state) :
  (forall j, option_map line_data (line_of s2 j) =
             option_map line_data (line_of s j)) ->
  (forall j o, order_of s j = Some o -> exists o', order_of s2 j = Some o') ->
  (forall i, In i ids -> exists ln o,
     line_of s i = Some ln /\ order_of s (l_order ln) = Some o) ->
  (forall i, In i ids -> exists ln o,
     line_of s2 i = Some ln /\ order_of s2 (l_order ln) = Some o).
Proof.
  intros Hl Ho Hex i Hi. destruct (Hex i Hi) as [ln [o [H1 H2]]].
  specialize (Hl i). rewrite H1 in Hl.
  destruct (line_of s2 i) as [ln2|]; [|discriminate].
  assert (Hd : line_data ln2 = line_data ln) by (simpl in Hl; congruence).
  destruct (Ho _ _ H2) as [o2 Ho2].
  exists ln2, o2. split; [reflexivity|]. now rewrite (line_data_order _ _ Hd).
Qed.

(** C9: after a first [acquire_stock_reservation] and the line compute, a
    second call creates no reservation for a line that got one in the
    first call. *)
Theorem acquire_twice_no_new_reservation (ids : list nat)
    (dv note : option string) (st : state)
    (Hex : forall i, In i ids -> exists ln o,
       line_of st i = Some ln /\ order_of st (l_order ln) = Some o)
    (Hfr : forall r, In r (st_res st) -> r_id r < st_next st) :
  exists st1 created1 st2 created2,
    acquire_stock_reservation ids dv note st = (Ok true, st1) /\
    st_res st1 = (st_res st ++ map (with_res_state RReserved) created1)%list /\
    acquire_stock_reservation ids dv note (recompute_lines ids st1) =
      (Ok true, st2) /\
    st_res st2 = (st_res st1 ++ map (with_res_state RReserved) created2)%list /\
    (forall l, 0 < count_line l created1 -> count_line l created2 = 0).
Proof.
  destruct (acquire_loop_spec dv note ids st [] Hex Hfr (fun x H => match H with end))
    as [s' [ct1 [Hrun1 [Hres1 [Hext1 [_ [Hfr1 [Hct1 [_ [Hcnt1 _]]]]]]]]]].
  set (st1 := set_res (reserved_res (map r_id ct1))
                      (log (EvReserve (map r_id ct1)) s')).
  assert (Hst1 : st_res st1 =
                 (st_res st ++ map (with_res_state RReserved) ct1)%list).
  { simpl. rewrite Hres1. apply (reserved_res_fresh _ _ (st_next st) Hfr).
    intros r Hr. apply Hct1 in Hr. tauto. }
  set (rl := recompute_lines ids st1).
  destruct (recompute_lines_frame ids st1) as [Hro [Hrn Hrl]].
  fold rl in Hro, Hrn, Hrl.
  assert (Hex2 : forall i, In i ids -> exists ln o,
             line_of rl i = Some ln /\ order_of rl (l_order ln) = Some o).
  { apply (lines_transport ids st rl); [|intros j o Hj|exact Hex].
    - intro j. rewrite Hrl. destruct Hext1 as [A _]. exact (A j).
    - destruct Hext1 as [_ [B _]]. destruct (B j o Hj) as [o' [Ho' _]].
      exists o'. rewrite (order_of_orders_eq st1 rl j Hro). exact Ho'. }
  assert (Hfr2 : forall r, In r (st_res rl) -> r_id r < st_next rl).
  { intros r Hr. unfold rl in Hr. rewrite recompute_lines_res in Hr.
    rewrite Hrn. simpl in Hr |- *. unfold reserved_res in Hr.
    apply in_map_iff in Hr. destruct Hr as [r0 [<- Hr0]].
    apply Hfr1 in Hr0. destruct (mem _ _); exact Hr0. }
  destruct (acquire_loop_spec dv note ids rl [] Hex2 Hfr2
              (fun x H => match H with end))
    as [s2 [ct2 [Hrun2 [Hres2 [_ [_ [_ [Hct2 [_ [Hcnt2 _]]]]]]]]]].
  exists st1, ct1,
    (set_res (reserved_res (map r_id ct2)) (log (EvReserve (map r_id ct2)) s2)),
    ct2.
  split; [exact (acquire_run _ _ _ _ _ _ Hrun1)|].
  split; [exact Hst1|].
  split; [exact (acquire_run _ _ _ _ _ _ Hrun2)|].
  split.
  { simpl. rewrite Hres2. unfold rl. rewrite recompute_lines_res.
    apply (reserved_res_fresh _ _ (st_next rl)).
    - intros r Hr. apply Hfr2. unfold rl. now rewrite recompute_lines_res.
    - intros r Hr. apply Hct2 in Hr. tauto. }
  intros l Hl. pose proof Hl as Hl0. rewrite Hcnt1 in Hl0.
  destruct (mem l ids) eqn:Em; [|simpl in Hl0; lia].
  apply mem_In in Em.
  destruct (count_line_pos l ct1 Hl) as [r [Hr Hrl']].
  rewrite Hcnt2. unfold rl. rewrite recompute_lines_reserved; [now rewrite andb_false_r|exact Em|].
  intro Hn.
  assert (Hin : In (with_res_state RReserved r) (reservation_ids st1 l)).
  { apply reservation_ids_In. rewrite Hst1. split; [|exact Hrl'].
    apply in_or_app. right. now apply in_map. }
  rewrite Hn in Hin. exact Hin.
Qed.

(** ** Witnesses: the hypotheses of the theorems hold on concrete data *)

Lemma is_stock_reservable_requires_witness :
  _compute_is_stock_reservation wit_state (ex_line 2 1 (Some 3) 1 5 true) = true /\
  _get_procure_method wit_state (ex_line 2 1 (Some 3) 1 5 true) <>
    Some "make_to_order".
Proof.
  assert (H : _compute_is_stock_reservation wit_state
                (ex_line 2 1 (Some 3) 1 5 true) = true)
    by (vm_compute; reflexivity).
  split; [exact H|].
  exact (proj2 (proj2 (proj2 (proj2
           (is_stock_reservable_requires wit_state _ H))))).
Defined.

Lemma write_blocks_on_reserve_witness :
  (exists k, In k (keys [("product_id", VId 2)]) /\
             In k ["product_id"; "product_uom_id"; "type"]) /\
  write [1] [("product_id", VId 2)] cex10_state =
    (Err (UserError msg_block), cex10_state).
Proof.
  assert (Hk : exists k, In k (keys [("product_id", VId 2)]) /\
                         In k ["product_id"; "product_uom_id"; "type"])
    by (exists "product_id"; simpl; auto).
  split; [exact Hk|].
  apply (proj1 (write_blocks_on_reserve [1] _ cex10_state Hk)).
  exists 1, (ex_res 40 1 3 10). split; [now left|simpl; now left].
Defined.

Lemma write_syncs_reservations_witness :
  NoDup (res_ids cex10_state) /\
  write [1] [("price_unit", VNum 99)] cex10_state =
    (Ok true, snd (write [1] [("price_unit", VNum 99)] cex10_state)) /\
  (r_price (ex_res 40 1 3 99) = 99%Z /\ r_qty (ex_res 40 1 3 99) = 3%Z).
Proof.
  assert (Hnd : NoDup (res_ids cex10_state))
    by (constructor; [intros []|constructor]).
  assert (Hw : write [1] [("price_unit", VNum 99)] cex10_state =
               (Ok true, snd (write [1] [("price_unit", VNum 99)] cex10_state)))
    by (vm_compute; reflexivity).
  assert (Hu : exists k, In k (keys [("price_unit", VNum 99)]) /\
                         In k ["price_unit"; "product_uom_qty"])
    by (exists "price_unit"; simpl; auto).
  split; [exact Hnd|split; [exact Hw|]].
  exact (write_syncs_reservations [1] _ cex10_state true _ Hu Hnd Hw 1 (ex_line 1 1 (Some 1) 3 99 false) (ex_res 40 1 3 99)
           (or_introl eq_refl) ltac:(vm_compute; reflexivity)
           ltac:(vm_compute; reflexivity)).
Defined.

Lemma write_frame_witness :
  write [1] [("name", VStr "x")] cex10_state =
    host_line_write [1] [("name", VStr "x")] cex10_state /\
  st_res (snd (write [1] [("name", VStr "x")] cex10_state)) =
    st_res cex10_state.
Proof.
  assert (Hn : forall k, In k (keys [("name", VStr "x")]) ->
            ~ In k ["product_id"; "product_uom_id"; "type";
                    "price_unit"; "product_uom_qty"]).
  { intros k [<-|[]]. simpl.
    intros [H|[H|[H|[H|[H|[]]]]]]; discriminate. }
  destruct (write_frame [1] _ cex10_state Hn) as [H1 [_ H3]].
  split; [exact H1|]. apply H3. simpl. intros [H|[]]. discriminate.
Defined.

Lemma wit_state_lines (ids : list nat) :
  incl ids [1; 2; 3] ->
  forall i, In i ids -> exists ln o,
    line_of wit_state i = Some ln /\ order_of wit_state (l_order ln) = Some o.
Proof.
  intros Hs i Hi. apply Hs in Hi.
  destruct Hi as [<-|[<-|[<-|[]]]]; (eexists; eexists; split; reflexivity).
Qed.

Lemma acquire_release_stock_reservation_witness :
  acquire_stock_reservation [1; 2; 3] None None wit_state =
    (Ok true, snd (acquire_stock_reservation [1; 2; 3] None None wit_state)) /\
  exists st' created,
    acquire_stock_reservation [1; 2; 3] None None wit_state = (Ok true, st') /\
    count_line 3 created = 0.
Proof.
  split; [vm_compute; reflexivity|].
  destruct (proj1 (acquire_release_stock_reservation [1; 2; 3] None None
                     wit_state (wit_state_lines _ (incl_refl _))
                     (fun r H => match H with end)))
    as [st' [created [Ha [_ [_ [Hc _]]]]]].
  exists st', created. split; [exact Ha|].
  apply (Hc 3 (ex_line 3 1 (Some 2) 1 5 false)); [right; right; now left|].
  reflexivity.
Defined.

Lemma acquire_twice_no_new_reservation_witness :
  exists st1 created1 st2 created2,
    acquire_stock_reservation [1; 2; 3] None None wit_state = (Ok true, st1) /\
    acquire_stock_reservation [1; 2; 3] None None (recompute_lines [1; 2; 3] st1) =
      (Ok true, st2) /\
    (forall l, 0 < count_line l created1 -> count_line l created2 = 0).
Proof.
  destruct (acquire_twice_no_new_reservation [1; 2; 3] None None wit_state
              (wit_state_lines _ (incl_refl _)) (fun r H => match H with end))
    as [st1 [c1 [st2 [c2 [H1 [_ [H3 [_ H5]]]]]]]].
  exists st1, c1, st2, c2. auto.
Defined.

(** * Further properties of the module *)

(** ** Onchange after a write of price or quantity *)

Lemma reservation_ids_set_res_map (g : reservation -> reservation)
    (st : state) (l : nat) :
  (forall r, r_line (g r) = r_line r) ->
  reservation_ids (set_res (map g) st) l = map g (reservation_ids st l).
Proof.
  intro Hg. unfold reservation_ids, set_res. simpl.
  apply filter_map_comm. intro x. now rewrite Hg.
Qed.

Lemma update_counts (ids : list nat) : forall (st st' : state) (u : unit),
  _update_reservation_price_qty ids st = (Ok u, st') ->
  (forall l, List.length (reservation_ids st' l) =
             List.length (reservation_ids st l)) /\
  (forall l, In l ids -> List.length (reservation_ids st l) <= 1).
Proof.
  induction ids as [|i t IH]; intros st st' u H.
  - simpl in H. inversion H; subst. split; [auto|intros l []].
  - simpl in H. munfold.
    destruct (line_of st i) as [ln|] eqn:El; [|discriminate].
    destruct (reservation_ids st i) as [|rv0 rs] eqn:Er.
    + destruct (IH st st' u H) as [H1 H2]. split; [exact H1|].
      intros l [<-|Hl]; [rewrite Er; simpl; lia|now apply H2].
    + destruct (Nat.ltb 1 (List.length (rv0 :: rs))) eqn:Elen;
        [discriminate|].
      apply Nat.ltb_ge in Elen.
      set (g := fun r => if mem (r_id r) (map r_id (rv0 :: rs))
                         then with_res_price_qty (l_price ln) (l_qty ln) r
                         else r) in H.
      assert (Hg : forall r, r_line (g r) = r_line r)
        by (intro r; unfold g; destruct (mem _ _); reflexivity).
      destruct (IH _ _ _ H) as [H1 H2].
      assert (H3 : forall l, List.length (reservation_ids (set_res (map g) st) l)
                             = List.length (reservation_ids st l))
        by (intro l; rewrite reservation_ids_set_res_map by exact Hg;
            apply length_map).
      split; [intro l; now rewrite H1, H3|].
      intros l [<-|Hl]; [now rewrite Er|]. rewrite <- H3. now apply H2.
Qed.

Lemma write_ok_update (ids : list nat) (v : vals) (st : state) (r : bool)
    (st' : state) :
  (exists k, In k (keys v) /\ In k ["price_unit"; "product_uom_qty"]) ->
  NoDup (res_ids st) ->
  write ids v st = (Ok r, st') ->
  exists st1, host_line_write ids v st = (Ok r, st1) /\
    _update_reservation_price_qty ids st1 = (Ok tt, st') /\
    NoDup (res_ids st1).
Proof.
  intros Hu Hnd Hw. apply update_keys_iff in Hu.
  destruct (write_ok_inv ids v st r st' Hw) as [st1 [Hh Hup]].
  rewrite Hu in Hup. exists st1. split; [exact Hh|split; [exact Hup|]].
  pose proof (host_line_write_spec ids v st) as Hs. rewrite Hh in Hs.
  unfold res_ids; rewrite Hs; now apply apply_o2m_nodup.
Qed.

(** After a successful write of price_unit or product_uom_qty, every line
    of the recordset has at most one reservation and the quantity onchange
    shows no warning for it. *)
Theorem write_then_onchange_no_warning (ids : list nat) (v : vals)
    (st : state) (r : bool) (st' : state)
    (Hu : exists k, In k (keys v) /\ In k ["price_unit"; "product_uom_qty"])
    (Hnd : NoDup (res_ids st))
    (Hw : write ids v st = (Ok r, st')) :
  forall l ln, In l ids -> line_of st' l = Some ln ->
    List.length (reservation_ids st' l) <= 1 /\
    onchange_product_id_qty st' ln = OnchangeNone.
Proof.
  destruct (write_ok_update ids v st r st' Hu Hnd Hw) as [st1 [_ [Hup Hnd1]]].
  destruct (update_counts ids st1 st' tt Hup) as [C1 C2].
  destruct (update_reservation_ok ids st1 st' tt Hnd1 Hup) as [_ [_ [_ S]]].
  intros l ln Hl Hln.
  assert (Hlen : List.length (reservation_ids st' l) <= 1)
    by (rewrite C1; now apply C2).
  split; [exact Hlen|].
  pose proof (line_of_id _ _ _ Hln) as Hid.
  unfold onchange_product_id_qty. rewrite Hid.
  destruct (reservation_ids st' l) as [|rv [|rv' rs]] eqn:Er.
  - now rewrite andb_false_r.
  - destruct (S l Hl ln rv Hln Er) as [_ Hq]. simpl. rewrite Hq.
    unfold float_compare. now rewrite Z.compare_refl.
  - simpl in Hlen. lia.
Qed.

(** ** Acquiring: skipped lines and the reservable flags afterwards *)

Lemma acquire_loop_skip (dv note : option string) (ids : list nat) :
  forall (s : state) (acc : list nat),
  (forall i, In i ids -> exists ln,
     line_of s i = Some ln /\ l_reservable ln = false) ->
  acquire_loop ids dv note acc s = (Ok acc, s).
Proof.
  induction ids as [|i t IH]; intros s acc H; [reflexivity|].
  destruct (H i (or_introl eq_refl)) as [ln [Hl Hr]].
  simpl acquire_loop. rewrite (bind_ok _ _ _ _ _ (browse_line_ok _ _ _ Hl)).
  cbv beta. rewrite Hr. cbn [negb].
  apply IH. intros i' Hi'. apply H. now right.
Qed.

(** When no line of the recordset is reservable, [acquire_stock_reservation]
    creates no reservation and no group and changes no line or order: it
    only calls [reserve] on the empty recordset and returns True. *)
Theorem acquire_nothing_reservable (ids : list nat)
    (dv note : option string) (s : state)
    (H : forall i, In i ids -> exists ln,
       line_of s i = Some ln /\ l_reservable ln = false) :
  exists s',
    acquire_stock_reservation ids dv note s = (Ok true, s') /\
    st_res s' = st_res s /\ st_lines s' = st_lines s /\
    st_orders s' = st_orders s /\ st_groups s' = st_groups s /\
    st_next s' = st_next s /\ st_log s' = (st_log s ++ [EvReserve []])%list.
Proof.
  eexists. split.
  - unfold acquire_stock_reservation.
    rewrite (bind_ok _ _ _ _ _ (acquire_loop_skip dv note ids s [] H)).
    reflexivity.
  - simpl. split; [|auto]. rewrite <- (map_id (st_res s)) at 2.
    apply map_ext. reflexivity.
Qed.

Lemma reservable_at_marked (s s1 : state) (k l : nat) :
  (forall j, line_of s1 j =
     option_map (fun x => if Nat.eqb (l_id x) k
                          then with_line_reservable false x else x)
                (line_of s j)) ->
  reservable_at s1 l = if Nat.eqb l k then false else reservable_at s l.
Proof.
  intro H. unfold reservable_at. rewrite H.
  destruct (line_of s l) as [x|] eqn:E; simpl;
    [|destruct (Nat.eqb l k); reflexivity].
  rewrite (line_of_id _ _ _ E).
  destruct (Nat.eqb l k); reflexivity.
Qed.

Lemma create_lines_ids (rv : reservation) (l : nat) (s s1 : state)
    (n : nat) :
  r_line rv = Some l -> create_reservation rv s = (Ok n, s1) ->
  map l_id (st_lines s1) = map l_id (st_lines s).
Proof.
  intros Hl H. unfold create_reservation in H. rewrite Hl in H.
  injection H as _ <-. rewrite recompute_line_ids. reflexivity.
Qed.

Lemma acquire_loop_flags (dv note : option string) (ids : list nat) :
  forall (s : state) (acc : list nat),
  (forall i, In i ids -> exists ln o,
     line_of s i = Some ln /\ order_of s (l_order ln) = Some o) ->
  exists s' rids,
    acquire_loop ids dv note acc s = (Ok rids, s') /\
    (forall l, reservable_at s' l = reservable_at s l && negb (mem l ids)) /\
    map l_id (st_lines s') = map l_id (st_lines s) /\
    (forall j, option_map line_data (line_of s' j) =
               option_map line_data (line_of s j)).
Proof.
  induction ids as [|i t IH]; intros s acc Hex.
  - exists s, acc. split; [reflexivity|]. split; [|auto]. intro l. simpl.
    now rewrite andb_true_r.
  - destruct (Hex i (or_introl eq_refl)) as [ln [o [Hl Ho]]].
    pose proof (line_of_id _ _ _ Hl) as Hid.
    assert (Hex' : forall i', In i' t -> exists ln' o',
               line_of s i' = Some ln' /\ order_of s (l_order ln') = Some o')
      by (intros i' Hi'; apply Hex; now right).
    simpl acquire_loop. rewrite (bind_ok _ _ _ _ _ (browse_line_ok _ _ _ Hl)).
    cbv beta. destruct (l_reservable ln) eqn:Er; cbn [negb].
    + destruct (prepare_spec s ln o dv note Ho)
        as [sa [o2 [Hp [_ [_ [_ [_ [Hext1 [_ [Hlin1 _]]]]]]]]]].
      rewrite (bind_ok _ _ _ _ _ Hp).
      destruct (create_spec sa (prepared ln o2 dv note) (l_id ln) eq_refl)
        as [s1 [Hc [_ [_ [Ho1 [_ [_ Hl1]]]]]]].
      rewrite (bind_ok _ _ _ _ _ Hc).
      assert (Hls1 : forall j, line_of s1 j =
                 option_map (fun x => if Nat.eqb (l_id x) (l_id ln)
                                      then with_line_reservable false x
                                      else x) (line_of s j)).
      { intro j. rewrite Hl1. now rewrite (line_of_lines_eq s sa j Hlin1). }
      assert (Hex1 : forall i', In i' t -> exists ln' o',
                 line_of s1 i' = Some ln' /\
                 order_of s1 (l_order ln') = Some o').
      { intros i' Hi'. destruct (Hex' i' Hi') as [ln' [o' [Hl' Ho']]].
        pose proof Hext1 as [_ [B1 _]].
        destruct (B1 _ _ Ho') as [o'' [Ho'' _]].
        rewrite Hls1, Hl'. simpl.
        eexists; exists o''. split; [reflexivity|].
        rewrite (order_of_orders_eq sa s1 _ Ho1).
        destruct (Nat.eqb (l_id ln') (l_id ln)); exact Ho''. }
      destruct (IH s1 (rs_union acc [st_next sa]) Hex1)
        as [s' [rids [Hrun [Hf [Hids Hd]]]]].
      exists s', rids. split; [exact Hrun|]. split; [|split].
      * intro l.
        rewrite Hf, (reservable_at_marked s s1 (l_id ln) l Hls1), Hid, mem_cons.
        destruct (Nat.eqb l i); simpl; [now rewrite andb_false_r|reflexivity].
      * rewrite Hids, (create_lines_ids (prepared ln o2 dv note) (l_id ln) _ _ _ eq_refl Hc), Hlin1.
        reflexivity.
      * intro j. rewrite Hd, Hls1.
        destruct (line_of s j) as [x|]; [|reflexivity]. simpl.
        destruct (Nat.eqb (l_id x) (l_id ln)); reflexivity.
    + destruct (IH s acc Hex') as [s' [rids [Hrun [Hf [Hids Hd]]]]].
      exists s', rids. split; [exact Hrun|]. split; [|split; [exact Hids|exact Hd]].
      intro l. rewrite Hf, mem_cons.
      destruct (Nat.eqb_spec l i) as [->|]; [|reflexivity].
      unfold reservable_at. rewrite Hl, Er. reflexivity.
Qed.

(** After [acquire_stock_reservation], no line of the recordset is
    stock-reservable any more; the flag of every other line is unchanged. *)
Theorem acquire_clears_reservable (ids : list nat)
    (dv note : option string) (st : state)
    (Hex : forall i, In i ids -> exists ln o,
       line_of st i = Some ln /\ order_of st (l_order ln) = Some o) :
  exists st',
    acquire_stock_reservation ids dv note st = (Ok true, st') /\
    (forall l, In l ids -> reservable_at st' l = false) /\
    (forall l, ~ In l ids -> reservable_at st' l = reservable_at st l).
Proof.
  destruct (acquire_loop_flags dv note ids st [] Hex)
    as [s' [rids [Hrun [Hf _]]]].
  exists (set_res (reserved_res rids) (log (EvReserve rids) s')).
  split.
  - unfold acquire_stock_reservation. rewrite (bind_ok _ _ _ _ _ Hrun).
    reflexivity.
  - assert (E : forall l, reservable_at
                  (set_res (reserved_res rids) (log (EvReserve rids) s')) l =
                reservable_at s' l) by reflexivity.
    split; intros l Hl; rewrite E, Hf.
    + rewrite (proj2 (mem_In _ _) Hl). apply andb_false_r.
    + destruct (mem l ids) eqn:Em; [apply mem_In in Em; contradiction|].
      apply andb_true_r.
Qed.

(** ** What the price/quantity update touches *)

Lemma with_res_price_qty_twice (a b c d : Z) (r : reservation) :
  with_res_price_qty a b (with_res_price_qty c d r) = with_res_price_qty a b r.
Proof. reflexivity. Qed.

Lemma with_res_price_qty_same (r : reservation) :
  with_res_price_qty (r_price r) (r_qty r) r = r.
Proof. destruct r; reflexivity. Qed.

Lemma res_upd_refl (ids : list nat) (r : reservation) : res_upd ids r r.
Proof. split; [symmetry; apply with_res_price_qty_same|now left]. Qed.

Lemma res_upd_trans (A B C : list nat) (r r1 r2 : reservation) :
  incl A C -> incl B C -> res_upd A r r1 -> res_upd B r1 r2 -> res_upd C r r2.
Proof.
  intros HA HB [E1 D1] [E2 D2]. split.
  - rewrite E2 at 1. rewrite E1 at 1. apply with_res_price_qty_twice.
  - destruct D2 as [->|[l [Hl Hin]]].
    + destruct D1 as [->|[l [Hl Hin]]]; [now left|right; eauto].
    + right. exists l. split; [|now apply HB].
      rewrite E1 in Hl. exact Hl.
Qed.

Lemma Forall2_compose {A} (R1 R2 R3 : A -> A -> Prop) (xs ys zs : list A) :
  (forall x y z, R1 x y -> R2 y z -> R3 x z) ->
  Forall2 R1 xs ys -> Forall2 R2 ys zs -> Forall2 R3 xs zs.
Proof.
  intros H F1. revert zs. induction F1 as [|x y xs ys Hxy F1 IH];
    intros zs F2; inversion F2; subst; constructor; eauto.
Qed.

Lemma Forall2_map_r {A} (R : A -> A -> Prop) (f : A -> A) (xs : list A) :
  (forall x, In x xs -> R x (f x)) -> Forall2 R xs (map f xs).
Proof.
  induction xs as [|x xs IH]; intro H; simpl; constructor.
  - apply H. now left.
  - apply IH. intros y Hy. apply H. now right.
Qed.

(** On success, [_update_reservation_price_qty] changes no line, order or
    group, keeps the reservations in place, and changes only the price and
    quantity of reservations linked to lines of the recordset (reservation
    ids being distinct). *)
Theorem update_reservation_frame (ids : list nat) (st st' : state)
    (u : unit) (Hnd : NoDup (res_ids st))
    (H : _update_reservation_price_qty ids st = (Ok u, st')) :
  st_lines st' = st_lines st /\ st_orders st' = st_orders st /\
  st_groups st' = st_groups st /\
  Forall2 (res_upd ids) (st_res st) (st_res st').
Proof.
  revert st Hnd H; induction ids as [|i t IH]; intros st Hnd H.
  - simpl in H. inversion H; subst. split; [auto|split; [auto|split; [auto|]]].
    rewrite <- (map_id (st_res st')) at 2.
    apply Forall2_map_r. intros r _. apply res_upd_refl.
  - simpl in H. munfold.
    destruct (line_of st i) as [ln|] eqn:El; [|discriminate].
    assert (Hinc : incl t (i :: t)) by (intros x Hx; now right).
    destruct (reservation_ids st i) as [|rv0 rs] eqn:Er.
    + destruct (IH st Hnd H) as [H1 [H2 [H3 H4]]].
      split; [exact H1|split; [exact H2|split; [exact H3|]]].
      eapply Forall2_compose; [|exact H4|].
      * intros x y z Hxy Hyz. exact (res_upd_trans t t _ _ _ _ Hinc Hinc Hxy Hyz).
      * rewrite <- (map_id (st_res st')) at 2. apply Forall2_map_r.
        intros r _. apply res_upd_refl.
    + destruct (Nat.ltb 1 (List.length (rv0 :: rs))) eqn:Elen;
        [discriminate|].
      destruct rs as [|r1 rs]; [|simpl in Elen; discriminate].
      destruct (update_step st i ln rv0 Hnd Er) as [S1 _].
      set (st1 := set_res _ st) in *.
      assert (Hnd1 : NoDup (res_ids st1)) by (rewrite S1; exact Hnd).
      destruct (IH st1 Hnd1 H) as [H1 [H2 [H3 H4]]].
      split; [exact H1|split; [exact H2|split; [exact H3|]]].
      eapply Forall2_compose; [|
        |exact H4].
      * intros x y z Hxy Hyz.
        exact (res_upd_trans (i :: t) t _ _ _ _ (incl_refl _) Hinc Hxy Hyz).
      * apply Forall2_map_r. intros r Hr. simpl.
        destruct (Nat.eqb_spec (r_id r) (r_id rv0)) as [E|E]; simpl.
        -- split; [reflexivity|right]. exists i. split; [|now left].
           assert (Hr0 : In rv0 (reservation_ids st i)) by (rewrite Er; now left).
           apply reservation_ids_In in Hr0. destruct Hr0 as [Hr0 Hl0].
           assert (r = rv0)
             by (eapply nodup_map_inj; [exact Hnd|exact Hr|exact Hr0|exact E]).
           now subst r.
        -- apply res_upd_refl.
Qed.

(** ** The order after acquiring all its lines *)

Lemma line_of_nodup (s : state) (ln : line) :
  NoDup (map l_id (st_lines s)) -> In ln (st_lines s) ->
  line_of s (l_id ln) = Some ln.
Proof.
  unfold line_of. induction (st_lines s) as [|x ls IH]; intros Hnd Hin;
    [destruct Hin|].
  simpl in Hnd |- *. inversion Hnd as [|a b Hx Hnd' E]; subst.
  destruct Hin as [<-|Hin]; [now rewrite Nat.eqb_refl|].
  destruct (Nat.eqb_spec (l_id x) (l_id ln)) as [E|E].
  - exfalso. apply Hx. rewrite E. now apply in_map.
  - now apply IH.
Qed.

(** Once [acquire_stock_reservation] has run on every line of an order
    (line ids being distinct), the order compute finds the order not
    stock-reservable. *)
Theorem acquire_order_not_reservable (ids : list nat)
    (dv note : option string) (st : state) (j : nat)
    (Hex : forall i, In i ids -> exists ln o,
       line_of st i = Some ln /\ order_of st (l_order ln) = Some o)
    (Hnd : NoDup (map l_id (st_lines st)))
    (Hall : forall ln, In ln (st_lines st) -> l_order ln = j ->
                      In (l_id ln) ids) :
  exists st',
    acquire_stock_reservation ids dv note st = (Ok true, st') /\
    forall o, order_of st' j = Some o ->
      fst (_compute_stock_reservation st' o) = false.
Proof.
  destruct (acquire_loop_flags dv note ids st [] Hex)
    as [s' [rids [Hrun [Hf [Hids Hd]]]]].
  exists (set_res (reserved_res rids) (log (EvReserve rids) s')).
  split.
  - unfold acquire_stock_reservation. rewrite (bind_ok _ _ _ _ _ Hrun).
    reflexivity.
  - intros o Ho. apply order_of_id in Ho.
    set (st' := set_res (reserved_res rids) (log (EvReserve rids) s')).
    assert (Hno : existsb l_reservable (order_lines st' o) = false).
    { apply not_true_is_false. intro H. apply existsb_In_iff in H.
      destruct H as [ln [Hin Hr]]. unfold order_lines in Hin.
      apply filter_In in Hin. destruct Hin as [Hin Hj].
      change (In ln (st_lines s')) in Hin. apply Nat.eqb_eq in Hj.
      assert (Hnd' : NoDup (map l_id (st_lines s'))) by (now rewrite Hids).
      pose proof (line_of_nodup s' ln Hnd' Hin) as Hl'.
      specialize (Hd (l_id ln)). rewrite Hl' in Hd.
      destruct (line_of st (l_id ln)) as [ln0|] eqn:E0; [|discriminate].
      assert (Hdd : line_data ln = line_data ln0) by (simpl in Hd; congruence).
      pose proof (line_data_order _ _ Hdd) as Ho0.
      pose proof (line_of_id _ _ _ E0) as Hi0.
      unfold line_of in E0. apply find_some in E0. destruct E0 as [Hin0 _].
      assert (Hid : In (l_id ln) ids)
        by (rewrite <- Hi0; apply Hall; [exact Hin0|congruence]).
      specialize (Hf (l_id ln)). unfold reservable_at at 1 in Hf.
      rewrite Hl', Hr, (proj2 (mem_In _ _) Hid), andb_false_r in Hf.
      discriminate. }
    unfold _compute_stock_reservation. rewrite compute_flags_fold.
    simpl. rewrite Hno. now destruct (_ || _).
Qed.

(** ** Witnesses of the further properties *)

Lemma write_then_onchange_no_warning_witness :
  write [1] [("product_uom_qty", VNum 5)] cex10_state =
    (Ok true, snd (write [1] [("product_uom_qty", VNum 5)] cex10_state)) /\
  onchange_product_id_qty
    (snd (write [1] [("product_uom_qty", VNum 5)] cex10_state))
    (ex_line 1 1 (Some 1) 5 10 false) = OnchangeNone.
Proof.
  assert (Hw : write [1] [("product_uom_qty", VNum 5)] cex10_state =
    (Ok true, snd (write [1] [("product_uom_qty", VNum 5)] cex10_state)))
    by (vm_compute; reflexivity).
  assert (Hu : exists k, In k (keys [("product_uom_qty", VNum 5)]) /\
                         In k ["price_unit"; "product_uom_qty"])
    by (exists "product_uom_qty"; simpl; auto).
  assert (Hnd : NoDup (res_ids cex10_state))
    by (constructor; [intros []|constructor]).
  split; [exact Hw|].
  exact (proj2 (write_then_onchange_no_warning [1] _ cex10_state true _
                  Hu Hnd Hw 1 _ (or_introl eq_refl)
                  ltac:(vm_compute; reflexivity))).
Defined.

Lemma acquire_nothing_reservable_witness :
  exists s', acquire_stock_reservation [3] None None wit_state = (Ok true, s') /\
    st_res s' = [] /\ st_groups s' = [].
Proof.
  assert (H : forall i, In i [3] -> exists ln,
             line_of wit_state i = Some ln /\ l_reservable ln = false)
    by (intros i [<-|[]]; eexists; split; reflexivity).
  destruct (acquire_nothing_reservable [3] None None wit_state H)
    as [s' [H1 [H2 [_ [_ [H5 _]]]]]].
  exists s'. split; [exact H1|]. now rewrite H2, H5.
Defined.

Lemma acquire_clears_reservable_witness :
  reservable_at wit_state 1 = true /\
  exists st', acquire_stock_reservation [1; 2] None None wit_state = (Ok true, st') /\
    reservable_at st' 1 = false /\ reservable_at st' 3 = reservable_at wit_state 3.
Proof.
  split; [reflexivity|].
  destruct (acquire_clears_reservable [1; 2] None None wit_state
              (wit_state_lines [1; 2] ltac:(intros x Hx; simpl in *; tauto)))
    as [st' [H1 [H2 H3]]].
  exists st'. split; [exact H1|]. split.
  - apply H2. now left.
  - apply H3. simpl. intuition discriminate.
Defined.

Lemma update_reservation_frame_witness :
  _update_reservation_price_qty [1] stale_qty_state =
    (Ok tt, snd (_update_reservation_price_qty [1] stale_qty_state)) /\
  Forall2 (res_upd [1]) (st_res stale_qty_state)
    (st_res (snd (_update_reservation_price_qty [1] stale_qty_state))).
Proof.
  assert (Hnd : NoDup (res_ids stale_qty_state))
    by (vm_compute; repeat constructor; simpl; intuition discriminate).
  assert (H : _update_reservation_price_qty [1] stale_qty_state =
    (Ok tt, snd (_update_reservation_price_qty [1] stale_qty_state)))
    by (vm_compute; reflexivity).
  split; [exact H|].
  exact (proj2 (proj2 (proj2 (update_reservation_frame [1] _ _ tt Hnd H)))).
Defined.

Lemma acquire_order_not_reservable_witness :
  fst (_compute_stock_reservation wit_state ex_order1) = true /\
  exists st', acquire_stock_reservation [1; 2; 3] None None wit_state =
                (Ok true, st') /\
    forall o, order_of st' 1 = Some o ->
      fst (_compute_stock_reservation st' o) = false.
Proof.
  split; [vm_compute; reflexivity|].
  assert (Hnd : NoDup (map l_id (st_lines wit_state)))
    by (vm_compute; repeat constructor; simpl; intuition discriminate).
  assert (Hall : forall ln, In ln (st_lines wit_state) -> l_order ln = 1 ->
                            In (l_id ln) [1; 2; 3]).
  { intros ln Hin _. simpl in Hin.
    destruct Hin as [<-|[<-|[<-|[]]]]; simpl; tauto. }
  exact (acquire_order_not_reservable [1; 2; 3] None None wit_state 1
           (wit_state_lines _ (incl_refl _)) Hnd Hall).
Defined.

(** ** The several-reservations error of [write] *)

Lemma update_raises_prefix (pre : list nat) :
  forall (l0 : nat) (post : list nat) (s : state),
  NoDup (res_ids s) ->
  (forall i, In i (pre ++ l0 :: post) -> line_of s i <> None) ->
  (forall l, In l pre -> List.length (reservation_ids s l) <= 1) ->
  1 < List.length (reservation_ids s l0) ->
  exists s', _update_reservation_price_qty (pre ++ l0 :: post) s =
               (Err (UserError msg_several), s') /\
             st_lines s' = st_lines s /\
             st_res s' = map (updated_before s pre) (st_res s).
Proof.
  induction pre as [|i pre IH]; intros l0 post s Hnd Hex Hpre Hl0.
  - simpl. munfold.
    destruct (line_of s l0) as [ln|] eqn:El;
      [|exfalso; apply (Hex l0); [now left|exact El]].
    destruct (reservation_ids s l0) as [|rv0 rs] eqn:Er;
      [simpl in Hl0; lia|].
    apply Nat.ltb_lt in Hl0. rewrite Hl0.
    exists s. split; [reflexivity|split; [reflexivity|]].
    rewrite <- (map_id (st_res s)) at 1. apply map_ext. intro r.
    unfold updated_before. now destruct (r_line r).
  - simpl. munfold.
    destruct (line_of s i) as [ln|] eqn:El;
      [|exfalso; apply (Hex i); [now left|exact El]].
    assert (Hex' : forall j, In j (pre ++ l0 :: post) -> line_of s j <> None)
      by (intros j Hj; apply Hex; now right).
    assert (Hpre' : forall l, In l pre ->
                      List.length (reservation_ids s l) <= 1)
      by (intros l Hl; apply Hpre; now right).
    destruct (reservation_ids s i) as [|rv0 rs] eqn:Er.
    + destruct (IH l0 post s Hnd Hex' Hpre' Hl0) as [s' [H1 [H2 H3]]].
      exists s'. split; [exact H1|split; [exact H2|]]. rewrite H3.
      apply map_ext_in. intros r Hr. unfold updated_before.
      destruct (r_line r) as [l|] eqn:Elr; [|reflexivity].
      rewrite mem_cons. destruct (Nat.eqb_spec l i) as [->|Hne];
        [|reflexivity].
      exfalso.
      assert (Hin : In r (reservation_ids s i))
        by (apply reservation_ids_In; auto).
      rewrite Er in Hin. destruct Hin.
    + destruct rs as [|r1 rs].
      2: { exfalso. pose proof (Hpre i (or_introl eq_refl)) as Hc.
           rewrite Er in Hc. simpl in Hc. lia. }
      change ((1 <? List.length [rv0])%nat) with false. cbv beta iota.
      destruct (update_step s i ln rv0 Hnd Er) as [S1 _].
      set (g := fun r : reservation =>
                  if mem (r_id r) (map r_id [rv0])
                  then with_res_price_qty (l_price ln) (l_qty ln) r else r)
        in *.
      set (s1 := set_res (map g) s) in *.
      assert (Hg : forall r, r_line (g r) = r_line r)
        by (intro r; unfold g; destruct (mem _ _); reflexivity).
      assert (Hc : forall l, List.length (reservation_ids s1 l) =
                             List.length (reservation_ids s l))
        by (intro l; unfold s1; rewrite reservation_ids_set_res_map
              by exact Hg; apply length_map).
      assert (Hnd1 : NoDup (res_ids s1)) by (rewrite S1; exact Hnd).
      assert (Hpre1 : forall l, In l pre ->
                        List.length (reservation_ids s1 l) <= 1)
        by (intros l Hl; rewrite Hc; now apply Hpre').
      assert (Hl01 : 1 < List.length (reservation_ids s1 l0))
        by (now rewrite Hc).
      destruct (IH l0 post s1 Hnd1 Hex' Hpre1 Hl01) as [s' [H1 [H2 H3]]].
      exists s'. split; [exact H1|split; [now rewrite H2|]].
      rewrite H3. change (updated_before s1 pre) with (updated_before s pre).
      change (st_res s1) with (map g (st_res s)). rewrite map_map.
      apply map_ext_in. intros r Hr.
      assert (Hrv0 : In rv0 (st_res s) /\ r_line rv0 = Some i)
        by (apply reservation_ids_In; rewrite Er; now left).
      unfold g. cbn [map]. rewrite mem_cons.
      destruct (Nat.eqb_spec (r_id r) (r_id rv0)) as [E|E]; cbn [orb mem existsb].
      * assert (r = rv0)
          by (eapply nodup_map_inj; [exact Hnd|exact Hr|apply Hrv0|exact E]).
        subst r. unfold updated_before. cbn [r_line with_res_price_qty].
        rewrite (proj2 Hrv0), mem_cons, Nat.eqb_refl, El. cbn [orb].
        destruct (mem i pre); reflexivity.
      * unfold updated_before. destruct (r_line r) as [l|] eqn:Elr;
          [|reflexivity].
        rewrite mem_cons. destruct (Nat.eqb_spec l i) as [->|Hne];
          [|reflexivity].
        exfalso. apply E.
        assert (Hin : In r (reservation_ids s i))
          by (apply reservation_ids_In; auto).
        rewrite Er in Hin. destruct Hin as [<-|[]]. reflexivity.
Qed.

(** C3 (amended): when price_unit or product_uom_qty is written, the
    blocking guard lets the call through, vals carries no reservation_ids
    commands and [l0] is the first line of the recordset with several
    reservations, the several-reservations UserError is raised after the
    host write. The failed call leaves the lines written and the
    reservations of the lines before [l0] carrying those lines' written
    price and quantity; every other reservation is unchanged. Only the host
    transaction's rollback restores the state. *)
Theorem write_several_raises_after_host_write (ids : list nat) (v : vals)
    (st : state) (b : bool) (st1 : state)
    (pre : list nat) (l0 : nat) (post : list nat)
    (Hu : exists k, In k (keys v) /\ In k ["price_unit"; "product_uom_qty"])
    (Hg : (forall k, In k (keys v) ->
                     ~ In k ["product_id"; "product_uom_id"; "type"]) \/
          (forall l, In l ids -> reservation_ids st l = []))
    (Hr : ~ In "reservation_ids" (keys v))
    (Hnd : NoDup (res_ids st))
    (Hh : host_line_write ids v st = (Ok b, st1))
    (Hs : ids = (pre ++ l0 :: post)%list)
    (Hpre : forall l, In l pre -> List.length (reservation_ids st l) <= 1)
    (Hl0 : 1 < List.length (reservation_ids st l0)) :
  exists st2,
    write ids v st = (Err (UserError msg_several), st2) /\
    st_lines st2 = st_lines st1 /\
    st_res st2 = map (updated_before st1 pre) (st_res st) /\
    transaction (write ids v) st = (Err (UserError msg_several), st).
Proof.
  apply update_keys_iff in Hu.
  assert (Hguard : nonempty (_test_block_on_reserve v) &&
                   Nat.ltb 0 (List.length (mapped_reservation_ids st ids))
                   = false).
  { destruct Hg as [Hg|Hg].
    - destruct (nonempty (_test_block_on_reserve v)) eqn:E; [|reflexivity].
      apply block_keys_iff in E. destruct E as [k [Hk Hb]].
      exfalso. exact (Hg k Hk Hb).
    - rewrite andb_false_iff. right.
      destruct (Nat.ltb _ _) eqn:E; [|reflexivity].
      apply mapped_nonempty in E. destruct E as [l [rv [Hl Hr']]].
      rewrite (Hg l Hl) in Hr'. contradiction. }
  assert (Hres1 : st_res st1 = st_res st).
  { pose proof (host_line_write_spec ids v st) as Hsp. rewrite Hh in Hsp.
    rewrite Hsp, (o2m_commands_nil v Hr). reflexivity. }
  assert (Hri : forall l, reservation_ids st1 l = reservation_ids st l)
    by (intro l; unfold reservation_ids; now rewrite Hres1).
  assert (Hnd1 : NoDup (res_ids st1)) by (unfold res_ids; now rewrite Hres1).
  pose proof (host_line_write_lines ids v st st1 b Hh) as Hex.
  rewrite Hs in Hex.
  destruct (update_raises_prefix pre l0 post st1 Hnd1 Hex
              ltac:(intros l Hl; rewrite Hri; now apply Hpre)
              ltac:(now rewrite Hri))
    as [st2 [H1 [H2 H3]]].
  rewrite <- Hs in H1.
  assert (Hw : write ids v st = (Err (UserError msg_several), st2)).
  { unfold write, bind at 1, get. simpl. rewrite Hguard.
    unfold bind. rewrite Hh, Hu, H1. reflexivity. }
  exists st2. split; [exact Hw|split; [exact H2|split]].
  - now rewrite H3, Hres1.
  - unfold transaction. now rewrite Hw.
Qed.

Lemma write_several_raises_after_host_write_witness :
  map r_price (st_res (snd (write [1; 2] [("price_unit", VNum 99)] cex3_state)))
    = [99; 20; 20]%Z /\
  transaction (write [1; 2] [("price_unit", VNum 99)]) cex3_state =
    (Err (UserError msg_several), cex3_state).
Proof.
  assert (Hh : host_line_write [1; 2] [("price_unit", VNum 99)] cex3_state =
    (Ok true, snd (host_line_write [1; 2] [("price_unit", VNum 99)] cex3_state)))
    by (vm_compute; reflexivity).
  assert (Hg : (forall k, In k (keys [("price_unit", VNum 99)]) ->
                 ~ In k ["product_id"; "product_uom_id"; "type"]) \/
               (forall l, In l [1; 2] -> reservation_ids cex3_state l = [])).
  { left. intros k [<-|[]]. simpl.
    intros [H|[H|[H|[]]]]; discriminate. }
  assert (Hu : exists k, In k (keys [("price_unit", VNum 99)]) /\
                         In k ["price_unit"; "product_uom_qty"])
    by (exists "price_unit"; simpl; auto).
  assert (Hr : ~ In "reservation_ids" (keys [("price_unit", VNum 99)]))
    by (simpl; intros [H|[]]; discriminate).
  assert (Hnd : NoDup (res_ids cex3_state))
    by (vm_compute; repeat constructor; simpl; intuition discriminate).
  assert (Hpre : forall l, In l [1] ->
             List.length (reservation_ids cex3_state l) <= 1)
    by (intros l [<-|[]]; vm_compute; lia).
  assert (Hl0 : 1 < List.length (reservation_ids cex3_state 2))
    by (vm_compute; lia).
  destruct (write_several_raises_after_host_write [1; 2] _ cex3_state true _
              [1] 2 [] Hu Hg Hr Hnd Hh eq_refl Hpre Hl0)
    as [st2 [Hw [_ [Hres Ht]]]].
  split; [|exact Ht].
  rewrite Hw. cbn [snd]. rewrite Hres. vm_compute. reflexivity.
Defined.
